(** * kubeflow examples: the xgboost_synthetic notebook and the Prow configuration

    The repository holds glue code: a notebook whose cells call scikit-learn,
    XGBoost, joblib, Fairing and Kubeflow Pipelines, and the YAML table that
    tells the CI runner which workflow to start for which change.

    - [Notebook]: the cells marked [fairing:include-cell] of
      [xgboost_synthetic/build-train-deploy.ipynb] ([read_synthetic_input],
      [train_model], [eval_model], [save_model], class [HousingServe]) as
      computations in a state / exception / event-log monad.  The libraries
      are a record of functions ([Library]); what the notebook relies on from
      their documentation is stated as laws ([LibrarySpec],
      [predict_one_per_row], [joblib_round_trip]), each assumed only where
      it is used.
    - [Kfp]: the pipeline cell ([train_pipeline]) over a small model of the
      [kfp.dsl] registration context.
    - [Prow]: [prow_config.yaml] as a list of records, with the runner's
      trigger rule.

    A float is represented by the rational its literal denotes; the
    notebook itself does no arithmetic on floats.  The one float computation
    of a library that decides a result here, the size of the test set, is
    done in binary64 ([n_test_of]). *)

From Stdlib Require Import QArith SpecFloat Ascii String.
From stdpp Require Import gmap strings list.

(* ===================================================================== *)
(** ** Python values, exceptions, library calls *)
(* ===================================================================== *)

(** A two-dimensional [ndarray] is its list of rows, a one-dimensional one
    its list of entries. *)
Definition ndarray : Type := list (list Q).
Definition vector : Type := list Q.

(** The exceptions that can surface.  None of them is defined by the
    notebook: the first three are raised by the interpreter, numpy and the
    file layer, [LibraryError] stands for whatever class a library raises. *)
Inductive exn : Type :=
| AttributeError (attr : string)
| IndexError
| FileNotFoundError (path : string)
| LibraryError (cls : string).

Inductive result (A : Type) : Type :=
| Ok (a : A)
| Raise (e : exn).
Arguments Ok {A} a.
Arguments Raise {A} e.

Definition raised {A} (r : result A) : option exn :=
  match r with Ok _ => None | Raise e => Some e end.

(** Arguments of [print] and [logging.info]. *)
Inductive arg : Type :=
| AStr (s : string)
| AFloat (q : Q)
| AInt (z : Z).

Section Objects.
Variable estimator : Type.

(** What a name such as [self.model] can hold, as far as the notebook can
    tell objects apart: [None], an estimator (an [XGBRegressor], which has
    [predict] and whose truth value is [True]), or some other object, of
    which only the truth value matters (it has no [predict]). *)
Inductive pyobj : Type :=
| PyNone
| PyEstimator (m : estimator)
| PyOther (truth : bool).

(** [bool(o)], the test behind [not o]. *)
Definition truthy (o : pyobj) : bool :=
  match o with
  | PyNone => false
  | PyEstimator _ => true
  | PyOther b => b
  end.

(** Every call the included cells make into a library or the runtime. *)
Inductive call : Type :=
| Call_make_regression (n_samples n_features : nat) (noise : Q)
| Call_train_test_split (X : ndarray) (y : vector) (test_size : Q) (shuffle : bool)
| Call_SimpleImputer
| Call_fit_transform (X : ndarray)
| Call_transform (X : ndarray)
| Call_XGBRegressor (n_estimators : nat) (learning_rate : Q)
| Call_fit (m : estimator) (X : ndarray) (y : vector)
           (early_stopping_rounds : nat) (eval_set : list (ndarray * vector))
| Call_predict (o : pyobj) (data : ndarray)
| Call_item (a : vector) (i : nat)
| Call_mean_absolute_error (y_true y_pred : vector)
| Call_print (args : list arg)
| Call_logging_info (fmt : string) (args : list arg)
| Call_joblib_dump (o : pyobj) (filename : string)
| Call_joblib_load (filename : string).

(** A log entry: the call and, when it raised, the exception. *)
Definition event : Type := call * option exn.

Definition is_load (ev : event) : bool :=
  match ev.1 with Call_joblib_load _ => true | _ => false end.

Definition is_dump (ev : event) : bool :=
  match ev.1 with Call_joblib_dump _ _ => true | _ => false end.

Definition quiet (ev : event) : Prop := ev.2 = None.

(* ------------------------------------------------------------------- *)
(** *** The monad: state, exceptions, log of calls *)

Definition M (S A : Type) : Type := S → result A * S * list event.

Definition ret {S A} (a : A) : M S A := λ s, (Ok a, s, []).

(** Sequencing: a raised exception skips the rest. *)
Definition bind {S A B} (m : M S A) (k : A → M S B) : M S B := λ s,
  match m s with
  | (Ok a, s1, ev1) => let '(r, s2, ev2) := k a s1 in (r, s2, ev1 ++ ev2)
  | (Raise e, s1, ev1) => (Raise e, s1, ev1)
  end.

(** Python's [try: m except: h].  No cell of the notebook uses it; it is
    here to show what [uncaught] below excludes. *)
Definition try_except {S A} (m : M S A) (h : exn → M S A) : M S A := λ s,
  match m s with
  | (Ok a, s1, ev1) => (Ok a, s1, ev1)
  | (Raise e, s1, ev1) => let '(r, s2, ev2) := h e s1 in (r, s2, ev1 ++ ev2)
  end.

(** A call whose outcome does not depend on the state. *)
Definition libcall {S A} (c : call) (r : result A) : M S A :=
  λ s, (r, s, [(c, raised r)]).

Definition get {S} : M S S := λ s, (Ok s, s, []).
End Objects.

Arguments PyNone {estimator}.
Arguments PyEstimator {estimator} m.
Arguments PyOther {estimator} truth.
Arguments truthy {estimator} o.
Arguments Call_make_regression {estimator} n_samples n_features noise.
Arguments Call_train_test_split {estimator} X y test_size shuffle.
Arguments Call_SimpleImputer {estimator}.
Arguments Call_fit_transform {estimator} X.
Arguments Call_transform {estimator} X.
Arguments Call_XGBRegressor {estimator} n_estimators learning_rate.
Arguments Call_fit {estimator} m X y early_stopping_rounds eval_set.
Arguments Call_predict {estimator} o data.
Arguments Call_item {estimator} a i.
Arguments Call_mean_absolute_error {estimator} y_true y_pred.
Arguments Call_print {estimator} args.
Arguments Call_logging_info {estimator} fmt args.
Arguments Call_joblib_dump {estimator} o filename.
Arguments Call_joblib_load {estimator} filename.
Arguments is_load {estimator} ev.
Arguments is_dump {estimator} ev.
Arguments quiet {estimator} ev.
Arguments ret {estimator S A} a.
Arguments bind {estimator S A B} m k.
Arguments try_except {estimator S A} m h.
Arguments libcall {estimator S A} c r.
Arguments get {estimator S}.

Declare Scope py_scope.
Delimit Scope py_scope with py.
Notation "x <- m ;; k" := (bind m (λ x, k))
  (at level 100, m at next level, right associativity) : py_scope.
Notation "m ;; k" := (bind m (λ _, k))
  (at level 100, right associativity) : py_scope.
Open Scope py_scope.

(* ===================================================================== *)
(** ** The notebook *)
(* ===================================================================== *)

Section Notebook.
Variables estimator payload : Type.

Abbreviation pyobj := (pyobj estimator).
Abbreviation call := (call estimator).
Abbreviation event := (event estimator).
Abbreviation M := (M estimator).

(** What the cells can see of the machine: the files (path to contents),
    [os.environ], and the state of numpy's global random generator. *)
Record world : Type := World {
  fs : gmap string payload;
  environ : gmap string string;
  rng : N
}.

Definition set_fs (f : gmap string payload) (w : world) : world :=
  {| fs := f; environ := environ w; rng := rng w |}.
Definition set_rng (s : N) (w : world) : world :=
  {| fs := fs w; environ := environ w; rng := s |}.

(** The libraries the notebook imports.  Each function either returns or
    raises; the two that draw random numbers thread the generator state.
    [lib_fit] returns the estimator as [fit] leaves it (Python mutates it
    in place).  [lib_dump] is joblib's serializer together with the opening
    of [filename] for writing, [lib_load] its deserializer.  When the dump
    raises, [lib_dump_partial] says what it leaves at [filename]: nothing
    when the file could not be opened, else the bytes written before the
    failure (joblib opens the file before it starts to pickle). *)
Record Library : Type := {
  lib_make_regression : nat → nat → Q → N → result (ndarray * vector) * N;
  lib_train_test_split :
    ndarray → vector → Q → bool → N →
    result (ndarray * ndarray * vector * vector) * N;
  lib_fit_transform : ndarray → result (vector * ndarray);
  lib_transform : vector → ndarray → result ndarray;
  lib_XGBRegressor : nat → Q → result estimator;
  lib_fit :
    estimator → ndarray → vector → nat → list (ndarray * vector) →
    result estimator;
  lib_best_score : estimator → Q;
  lib_best_iteration : estimator → Z;
  lib_predict : estimator → ndarray → result vector;
  lib_mean_absolute_error : vector → vector → result Q;
  lib_dump : pyobj → string → result payload;
  lib_dump_partial : pyobj → string → option payload;
  lib_load : payload → result pyobj
}.

Variable L : Library.

(** A call that draws from the random generator. *)
Definition randcall {A} (c : call) (f : N → result A * N) : M world A := λ w,
  let '(r, s) := f (rng w) in (r, set_rng s w, [(c, raised r)]).

(** [joblib.dump(o, filename)]: on success [filename], and no other path,
    holds the serialized object.  A dump that raises after opening the file
    leaves the truncated output there, in place of what the file held. *)
Definition joblib_dump (o : pyobj) (filename : string) : M world unit := λ w,
  match lib_dump L o filename with
  | Ok bytes =>
      (Ok tt, set_fs (<[filename := bytes]> (fs w)) w,
       [(Call_joblib_dump o filename, None)])
  | Raise e =>
      (Raise e,
       match lib_dump_partial L o filename with
       | Some junk => set_fs (<[filename := junk]> (fs w)) w
       | None => w
       end,
       [(Call_joblib_dump o filename, Some e)])
  end.

(** What [joblib.load(filename)] yields on machine [w].  A path string
    stands for the file it names: the map has one key for each file. *)
Definition read_object (w : world) (filename : string) : result pyobj :=
  match fs w !! filename with
  | Some bytes => lib_load L bytes
  | None => Raise (FileNotFoundError filename)
  end.

(** [joblib.load(filename)]. *)
Definition joblib_load (filename : string) : M world pyobj := λ w,
  let r := read_object w filename in
  (r, w, [(Call_joblib_load filename, raised r)]).

(** [o.predict(X)]: only an estimator has the attribute. *)
Definition obj_predict (o : pyobj) (X : ndarray) : result vector :=
  match o with
  | PyEstimator m => lib_predict L m X
  | _ => Raise (AttributeError "predict")
  end.

(** [a.item(i)] of a one-dimensional array. *)
Definition item (a : vector) (i : nat) : result Q :=
  match a !! i with
  | Some v => Ok v
  | None => Raise IndexError
  end.

Definition print {S} (args : list arg) : M S unit :=
  libcall (Call_print args) (Ok tt).

Definition logging_info {S} (fmt : string) (args : list arg) : M S unit :=
  libcall (Call_logging_info fmt args) (Ok tt).

(* ------------------------------------------------------------------- *)
(** *** The helper cells *)

Definition default_test_size : Q := 1 # 4.

(** [def read_synthetic_input(test_size=0.25)] *)
Definition read_synthetic_input (test_size : Q)
  : M world ((ndarray * vector) * (ndarray * vector)) :=
  Xy <- randcall (Call_make_regression 200 5 (1 # 10))
                 (lib_make_regression L 200 5 (1 # 10)) ;;
  let '(X, y) := Xy in
  parts <- randcall (Call_train_test_split X y test_size false)
                    (lib_train_test_split L X y test_size false) ;;
  let '(train_X, test_X, train_y, test_y) := parts in
  libcall (A := unit) Call_SimpleImputer (Ok tt) ;;
  fitted <- libcall (Call_fit_transform train_X) (lib_fit_transform L train_X) ;;
  let '(imputer, train_X) := fitted in
  test_X <- libcall (Call_transform test_X) (lib_transform L imputer test_X) ;;
  ret ((train_X, train_y), (test_X, test_y)).

(** [def train_model(train_X, train_y, test_X, test_y, n_estimators,
    learning_rate)] *)
Definition train_model {S} (train_X : ndarray) (train_y : vector)
    (test_X : ndarray) (test_y : vector)
    (n_estimators : nat) (learning_rate : Q) : M S estimator :=
  model <- libcall (Call_XGBRegressor n_estimators learning_rate)
                   (lib_XGBRegressor L n_estimators learning_rate) ;;
  model <- libcall (Call_fit model train_X train_y 40 [(test_X, test_y)])
                   (lib_fit L model train_X train_y 40 [(test_X, test_y)]) ;;
  print [AStr "Best RMSE on eval: %.2f with %d rounds";
         AFloat (lib_best_score L model);
         AInt (lib_best_iteration L model + 1)] ;;
  ret model.

(** [def eval_model(model, test_X, test_y)] *)
Definition eval_model {S} (model : pyobj) (test_X : ndarray) (test_y : vector)
  : M S unit :=
  predictions <- libcall (Call_predict model test_X) (obj_predict model test_X) ;;
  mae <- libcall (Call_mean_absolute_error predictions test_y)
                 (lib_mean_absolute_error L predictions test_y) ;;
  logging_info "mean_absolute_error=%.2f" [AFloat mae].

(** [def save_model(model, model_file)] *)
Definition save_model (model : pyobj) (model_file : string) : M world unit :=
  joblib_dump model model_file ;;
  logging_info "Model export success: %s" [AStr model_file].

(* ------------------------------------------------------------------- *)
(** *** [class HousingServe] *)

Record HousingServe : Type := {
  n_estimators : nat;
  learning_rate : Q;
  model_file : string;
  model : pyobj
}.

(** Methods run on the object together with the world, so that an
    assignment to [self.model] survives a later exception. *)
Definition on_world {A} (m : M world A) : M (HousingServe * world) A := λ s,
  let '(r, w, evs) := m s.2 in (r, (s.1, w), evs).

Definition get_self : M (HousingServe * world) HousingServe :=
  λ s, (Ok s.1, s, []).

Definition set_model (o : pyobj) : M (HousingServe * world) unit := λ s,
  (Ok tt,
   ({| n_estimators := n_estimators s.1; learning_rate := learning_rate s.1;
       model_file := model_file s.1; model := o |}, s.2),
   []).

(** [self] after [self.model = o]. *)
Definition with_model (self : HousingServe) (o : pyobj) : HousingServe :=
  {| n_estimators := n_estimators self; learning_rate := learning_rate self;
     model_file := model_file self; model := o |}.

(** [bool(model_file)] for the constructor's argument, [None] or a string. *)
Definition supplied (model_file : option string) : bool :=
  match model_file with
  | Some s => negb (String.eqb s "")
  | None => false
  end.

(** [def __init__(self, model_file=None)].  ["MODEL_FILE" in os.environ]
    followed by [os.getenv("MODEL_FILE")] is one lookup of [environ]. *)
Definition HousingServe_init (model_file : option string) : M world HousingServe :=
  model_file <-
    (if negb (supplied model_file) then
       w <- get ;;
       match environ w !! "MODEL_FILE" with
       | Some v =>
           print [AStr "model_file not supplied; checking environment variable"] ;;
           ret v
       | None =>
           print [AStr "model_file not supplied; using the default"] ;;
           ret "mockup-model.dat"
       end
     else ret (default "" model_file)) ;;
  print [AStr ("model_file=" +:+ model_file)] ;;
  ret {| n_estimators := 50; learning_rate := 1 # 10;
         model_file := model_file; model := PyNone |}.

(** [def train(self)] *)
Definition HousingServe_train : M (HousingServe * world) unit :=
  self <- get_self ;;
  data <- on_world (read_synthetic_input default_test_size) ;;
  let '((train_X, train_y), (test_X, test_y)) := data in
  model <- train_model train_X train_y test_X test_y
                       (n_estimators self) (learning_rate self) ;;
  eval_model (PyEstimator model) test_X test_y ;;
  on_world (save_model (PyEstimator model) (model_file self)).

(** [def predict(self, X, feature_names)] *)
Definition HousingServe_predict (X : ndarray) (feature_names : option (list string))
  : M (HousingServe * world) (list (list Q)) :=
  self <- get_self ;;
  (if negb (truthy (model self)) then
     loaded <- on_world (joblib_load (model_file self)) ;;
     set_model loaded
   else ret tt) ;;
  self <- get_self ;;
  prediction <- libcall (Call_predict (model self) X) (obj_predict (model self) X) ;;
  first <- libcall (Call_item prediction 0) (item prediction 0) ;;
  second <- libcall (Call_item prediction 0) (item prediction 0) ;;
  ret [[first; second]].

(** Calling [predict] once for each input of a list, on the same object;
    an exception does not stop the caller here (a server keeps serving). *)
Fixpoint predict_each (Xs : list ndarray) (s : HousingServe * world)
  : HousingServe * world * list event :=
  match Xs with
  | [] => (s, [])
  | X :: Xs' =>
      let '(_, s1, ev1) := HousingServe_predict X None s in
      let '(s2, ev2) := predict_each Xs' s1 in
      (s2, ev1 ++ ev2)
  end.

(* ------------------------------------------------------------------- *)
(** *** The cells that use the class *)

(** A method call on a temporary, as in [HousingServe(...).train()]: no
    name is bound to the object, which is gone after the call. *)
Definition call_method {A} (self : HousingServe)
    (m : M (HousingServe * world) A) : M world A := λ w,
  let '(r, s, evs) := m (self, w) in (r, s.2, evs).

(** Cell "Train your Model Locally":
    [HousingServe(model_file="mockup-model.dat").train()] *)
Definition train_locally : M world unit :=
  self <- HousingServe_init (Some "mockup-model.dat") ;;
  call_method self HousingServe_train.

(** Cell "Predict locally":
    [(train_X, train_y), (test_X, test_y) = read_synthetic_input()]
    [HousingServe().predict(test_X, None)] *)
Definition predict_locally : M world (list (list Q)) :=
  data <- read_synthetic_input default_test_size ;;
  let '((train_X, train_y), (test_X, test_y)) := data in
  self <- HousingServe_init None ;;
  call_method self (HousingServe_predict test_X None).
End Notebook.

Arguments lib_make_regression {estimator payload} l.
Arguments lib_train_test_split {estimator payload} l.
Arguments lib_fit_transform {estimator payload} l.
Arguments lib_transform {estimator payload} l.
Arguments lib_XGBRegressor {estimator payload} l.
Arguments lib_fit {estimator payload} l.
Arguments lib_best_score {estimator payload} l.
Arguments lib_best_iteration {estimator payload} l.
Arguments lib_predict {estimator payload} l.
Arguments lib_mean_absolute_error {estimator payload} l.
Arguments lib_dump {estimator payload} l.
Arguments lib_dump_partial {estimator payload} l.
Arguments lib_load {estimator payload} l.
Arguments World {payload} fs environ rng.
Arguments fs {payload} w.
Arguments environ {payload} w.
Arguments rng {payload} w.
Arguments set_fs {payload} f w.
Arguments set_rng {payload} s w.
Arguments randcall {estimator payload A} c f.
Arguments joblib_dump {estimator payload} L o filename.
Arguments read_object {estimator payload} L w filename.
Arguments joblib_load {estimator payload} L filename.
Arguments obj_predict {estimator payload} L o X.
Arguments print {estimator S} args.
Arguments logging_info {estimator S} fmt args.
Arguments read_synthetic_input {estimator payload} L test_size.
Arguments train_model {estimator payload} L {S} train_X train_y test_X test_y
  n_estimators learning_rate.
Arguments eval_model {estimator payload} L {S} model test_X test_y.
Arguments save_model {estimator payload} L model model_file.
Arguments n_estimators {estimator} h.
Arguments learning_rate {estimator} h.
Arguments model_file {estimator} h.
Arguments model {estimator} h.
Arguments on_world {estimator payload A} m.
Arguments get_self {estimator payload}.
Arguments set_model {estimator payload} o.
Arguments with_model {estimator} self o.
Arguments HousingServe_init {estimator payload} model_file.
Arguments HousingServe_train {estimator payload} L.
Arguments HousingServe_predict {estimator payload} L X feature_names.
Arguments predict_each {estimator payload} L Xs s.
Arguments call_method {estimator payload A} self m.
Arguments train_locally {estimator payload} L.
Arguments predict_locally {estimator payload} L.

(* ===================================================================== *)
(** ** What the notebook relies on from the libraries' documentation *)
(* ===================================================================== *)

Definition rectangular (n_features : nat) (X : ndarray) : Prop :=
  Forall (λ row, length row = n_features) X.

(** Binary64 arithmetic, as Python's [float] has it: the double of an
    integer, and the double a decimal literal [a/b] denotes (the correctly
    rounded quotient of the two integers). *)
Definition binary64 (z : Z) : spec_float := binary_normalize 53 1024 z 0 false.

Definition as_float (q : Q) : spec_float :=
  SFdiv 53 1024 (binary64 (Qnum q)) (binary64 (Zpos (Qden q))).

(** [math.ceil] of a finite double [m * 2^e]. *)
Definition float_ceil (f : spec_float) : Z :=
  match f with
  | S754_finite s m e =>
      let v := if s then Zneg m else Zpos m in
      if (0 <=? e)%Z then (v * 2 ^ e)%Z else (- ((- v) / 2 ^ (- e)))%Z
  | _ => 0%Z
  end.

(** Number of test rows for a fractional [test_size]:
    [ceil(test_size * n_samples)], the product being that of two doubles. *)
Definition n_test_of (test_size : Q) (n_samples : nat) : nat :=
  Z.to_nat (float_ceil (SFmul 53 1024 (as_float test_size)
                                      (binary64 (Z.of_nat n_samples)))).

(** [0 < test_size < 1], as floats. *)
Definition fraction (test_size : Q) : Prop :=
  SFltb (binary64 0) (as_float test_size) = true ∧
  SFltb (as_float test_size) (binary64 1) = true.

(** What [read_synthetic_input] relies on from scikit-learn. *)
Record LibrarySpec {estimator payload : Type} (L : Library estimator payload) : Prop := {
  (** [make_regression] returns [n_samples] rows of [n_features] entries
      and as many targets. *)
  make_regression_shape : ∀ n f noise s X y s',
    lib_make_regression L n f noise s = (Ok (X, y), s') →
    length X = n ∧ length y = n ∧ rectangular f X;
  (** [train_test_split(X, y, test_size=t, shuffle=False)] with a fraction
      [t]: the last [ceil(t * n)] rows are the test set, the rows before
      them the training set, in their order; the generator is not used. *)
  train_test_split_ordered : ∀ X y t s,
    fraction t → length y = length X →
    n_test_of t (length X) < length X →
    let k := length X - n_test_of t (length X) in
    lib_train_test_split L X y t false s
    = (Ok (take k X, drop k X, take k y, drop k y), s);
  (** [SimpleImputer()] on arrays without missing entries (an array of
      rationals has none) returns them unchanged. *)
  imputer_no_missing : ∀ f X,
    X ≠ [] → 0 < f → rectangular f X →
    ∃ stats, lib_fit_transform L X = Ok (stats, X) ∧
      ∀ X', X' ≠ [] → rectangular f X' → lib_transform L stats X' = Ok X'
}.

(** What [HousingServe.predict] relies on from XGBoost: an estimator's
    [predict] returns one value for each row. *)
Definition predict_one_per_row {estimator payload : Type}
    (L : Library estimator payload) : Prop :=
  ∀ m X p, lib_predict L m X = Ok p → length p = length X.

(** joblib reads back what it wrote: [load] of the bytes [dump] produced
    for an object is that object. *)
Definition joblib_round_trip {estimator payload : Type}
    (L : Library estimator payload) : Prop :=
  ∀ o filename bytes, lib_dump L o filename = Ok bytes → lib_load L bytes = Ok o.

(* ===================================================================== *)
(** ** A small instance of the libraries, to run the cells on *)
(* ===================================================================== *)

Module Mock.
(** An estimator is the constant it predicts ([-1] before it is fitted);
    files hold objects. *)
Definition estimator : Type := Q.
Definition payload : Type := pyobj estimator.

Definition row (n_features : nat) (seed : N) (i : nat) : list Q :=
  (λ j, inject_Z (Z.of_N seed + Z.of_nat (i * n_features + j))) <$> seq 0 n_features.

Definition make_regression (n f : nat) (noise : Q) (s : N)
  : result (ndarray * vector) * N :=
  (Ok (row f s <$> seq 0 n, (λ i, inject_Z (Z.of_nat i)) <$> seq 0 n), (s + 1)%N).

Definition train_test_split (X : ndarray) (y : vector) (t : Q) (shuffle : bool) (s : N)
  : result (ndarray * ndarray * vector * vector) * N :=
  let k := length X - n_test_of t (length X) in
  if negb (SFltb (binary64 0) (as_float t)) || negb (SFltb (as_float t) (binary64 1))
     || (k =? 0) || negb (length y =? length X) then
    (Raise (LibraryError "ValueError"), s)
  else if shuffle then
    (Ok (take k (reverse X), drop k (reverse X), take k (reverse y), drop k (reverse y)),
     (s + 1)%N)
  else (Ok (take k X, drop k X, take k y, drop k y), s).

Definition fit_transform (X : ndarray) : result (vector * ndarray) :=
  match X with
  | [] => Raise (LibraryError "ValueError")
  | r :: _ => Ok (r, X)
  end.

Definition transform (stats : vector) (X : ndarray) : result ndarray :=
  match X with
  | [] => Raise (LibraryError "ValueError")
  | _ => Ok X
  end.

Definition fit (m : estimator) (X : ndarray) (y : vector) (rounds : nat)
    (eval_set : list (ndarray * vector)) : result estimator :=
  match y with
  | [] => Raise (LibraryError "XGBoostError")
  | v :: _ => Ok v
  end.

Definition mean_absolute_error (a b : vector) : result Q :=
  if length a =? length b then Ok 0%Q else Raise (LibraryError "ValueError").

Definition lib : Library estimator payload := {|
  lib_make_regression := make_regression;
  lib_train_test_split := train_test_split;
  lib_fit_transform := fit_transform;
  lib_transform := transform;
  lib_XGBRegressor := λ _ _, Ok (-1)%Q;
  lib_fit := fit;
  lib_best_score := λ m, m;
  lib_best_iteration := λ _, 49%Z;
  lib_predict := λ m X, Ok ((λ _, m) <$> X);
  lib_mean_absolute_error := mean_absolute_error;
  lib_dump := λ o _, Ok o;
  lib_dump_partial := λ _ _, None;
  lib_load := λ bytes, Ok bytes
|}.

(** The same libraries with an XGBoost whose [fit] always raises. *)
Definition failing_fit : Library estimator payload := {|
  lib_make_regression := make_regression;
  lib_train_test_split := train_test_split;
  lib_fit_transform := fit_transform;
  lib_transform := transform;
  lib_XGBRegressor := λ _ _, Ok (-1)%Q;
  lib_fit := λ _ _ _ _ _, Raise (LibraryError "XGBoostError");
  lib_best_score := λ m, m;
  lib_best_iteration := λ _, 49%Z;
  lib_predict := λ m X, Ok ((λ _, m) <$> X);
  lib_mean_absolute_error := mean_absolute_error;
  lib_dump := λ o _, Ok o;
  lib_dump_partial := λ _ _, None;
  lib_load := λ bytes, Ok bytes
|}.

Definition empty_world : world payload :=
  {| fs := ∅; environ := ∅; rng := 0%N |}.

(** A machine on which [path] holds the serialized object [o]. *)
Definition world_with_file (path : string) (o : pyobj estimator) : world payload :=
  {| fs := {[ path := o ]}; environ := ∅; rng := 0%N |}.

Definition fresh (path : string) : HousingServe estimator :=
  {| n_estimators := 50; learning_rate := 1 # 10;
     model_file := path; model := PyNone |}.

Definition two_rows : ndarray := [[1; 2; 3; 4; 5]; [6; 7; 8; 9; 10]]%Q.

(** What [make_regression 200 5] yields from generator state 0. *)
Definition X200 : ndarray := row 5 0 <$> seq 0 200.
Definition y200 : vector := (λ i, inject_Z (Z.of_nat i)) <$> seq 0 200.
End Mock.

(* ===================================================================== *)
(** ** The pipeline cell *)
(* ===================================================================== *)

Module Kfp.
(** What [kfp.dsl] keeps of a [ContainerOp].  [dependent_names] is
    filled by [.after(...)] (and by consuming another op's outputs);
    [secrets] by [gcp.use_gcp_secret]. *)
Record ContainerOp : Type := {
  name : string;
  image : string;
  command : list string;
  working_dir : option string;
  secrets : list string;
  dependent_names : list string
}.

(** A pipeline function runs against the list of ops registered so far.
    Creating a [ContainerOp] appends it and yields a reference to it (its
    position); later updates through the reference change the registered
    op, as the Python object is shared. *)
Definition Dsl (A : Type) : Type := list ContainerOp → A * list ContainerOp.

Definition new_ContainerOp (name image : string) (command : list string) : Dsl nat :=
  λ ops,
    (length ops,
     ops ++ [{| name := name; image := image; command := command;
                working_dir := None; secrets := []; dependent_names := [] |}]).

Definition with_secret (secret_name : string) (op : ContainerOp) : ContainerOp :=
  {| name := name op; image := image op; command := command op;
     working_dir := working_dir op; secrets := secrets op ++ [secret_name];
     dependent_names := dependent_names op |}.

Definition with_working_dir (dir : string) (op : ContainerOp) : ContainerOp :=
  {| name := name op; image := image op; command := command op;
     working_dir := Some dir; secrets := secrets op;
     dependent_names := dependent_names op |}.

(** [op.apply(gcp.use_gcp_secret(secret_name))]; returns the op. *)
Definition apply_use_gcp_secret (secret_name : string) (op : nat) : Dsl nat :=
  λ ops, (op, alter (with_secret secret_name) op ops).

(** [op.container.working_dir = dir] *)
Definition set_working_dir (op : nat) (dir : string) : Dsl unit :=
  λ ops, (tt, alter (with_working_dir dir) op ops).

(** [def train_pipeline()], with the two globals it reads:
    [preprocessor.executable.name] and [builder.image_tag]. *)
Definition train_pipeline (executable_name image_tag : string) : Dsl unit :=
  λ ops,
    let command := ["python"; executable_name; "train"] in
    let '(op, ops) := new_ContainerOp "train" image_tag command ops in
    let '(train_op, ops) := apply_use_gcp_secret "user-gcp-sa" op ops in
    set_working_dir train_op "/app" ops.

(** The graph the compiler builds: a node for each registered op, an edge
    into an op from each name it depends on. *)
Record Dag : Type := {
  nodes : list ContainerOp;
  edges : list (string * string)
}.

Definition edges_of (ops : list ContainerOp) : list (string * string) :=
  op ← ops; (λ d, (d, name op)) <$> dependent_names op.

(** [compiler.Compiler().compile(pipeline_func, ...)]: run the function
    in an empty context and collect the graph. *)
Definition compile (pipeline_func : Dsl unit) : Dag :=
  let ops := (pipeline_func []).2 in
  {| nodes := ops; edges := edges_of ops |}.
End Kfp.

(* ===================================================================== *)
(** ** prow_config.yaml *)
(* ===================================================================== *)

Module Prow.
Inductive job_type : Type := presubmit | postsubmit | periodic.

Definition job_type_eqb (a b : job_type) : bool :=
  match a, b with
  | presubmit, presubmit | postsubmit, postsubmit | periodic, periodic => true
  | _, _ => false
  end.

(** An entry of [workflows]; a missing [include_dirs] is the empty list. *)
Record workflow : Type := {
  app_dir : string;
  component : string;
  name : string;
  job_types : list job_type;
  include_dirs : list string
}.

Definition workflows : list workflow := [
  {| app_dir := "kubeflow/examples/test/workflows";
     component := "workflows";
     name := "unittests";
     job_types := [presubmit; postsubmit; periodic];
     include_dirs := [] |};
  {| app_dir := "kubeflow/examples/test/workflows";
     component := "code_search";
     name := "code-search";
     job_types := [presubmit; postsubmit];
     include_dirs := ["code_search/*"] |};
  {| app_dir := "kubeflow/examples/test/workflows";
     component := "mnist";
     name := "mnist";
     job_types := [periodic; presubmit; postsubmit];
     include_dirs := ["mnist/*"] |};
  {| app_dir := "kubeflow/examples/test/workflows";
     component := "gis";
     name := "gis";
     job_types := [periodic; presubmit; postsubmit];
     include_dirs := ["github_issue_summarization/*"] |};
  {| app_dir := "kubeflow/examples/test/workflows";
     component := "xgboost_ames_housing";
     name := "xgboost";
     job_types := [presubmit; postsubmit];
     include_dirs := ["xgboost_ames_housing/*"] |};
  {| app_dir := "kubeflow/examples/test/workflows";
     component := "pytorch_mnist";
     name := "pytorch-mnist";
     job_types := [periodic; presubmit; postsubmit];
     include_dirs := ["pytorch_mnist/*"] |}
].

(** The directory of the example each E2E entry tests, by entry name (the
    comments of the file say which example an entry is for). *)
Definition example_dir (workflow_name : string) : option string :=
  if String.eqb workflow_name "code-search" then Some "code_search"
  else if String.eqb workflow_name "mnist" then Some "mnist"
  else if String.eqb workflow_name "gis" then Some "github_issue_summarization"
  else if String.eqb workflow_name "xgboost" then Some "xgboost_ames_housing"
  else if String.eqb workflow_name "pytorch-mnist" then Some "pytorch_mnist"
  else None.

Definition e2e (w : workflow) : bool := negb (String.eqb (name w) "unittests").

(** Shell-style matching as [fnmatch] does it: [*] stands for any run of
    characters, [/] included, and [?] for one character.  Bracket classes
    are left out; no pattern of the file has one. *)
Fixpoint glob (pat : string) : string → bool :=
  match pat with
  | EmptyString => λ s, match s with EmptyString => true | _ => false end
  | String c pat' =>
      if Ascii.eqb c "*"%char then
        fix star (s : string) : bool :=
          glob pat' s || match s with
                         | EmptyString => false
                         | String _ s' => star s'
                         end
      else if Ascii.eqb c "?"%char then
        λ s, match s with EmptyString => false | String _ s' => glob pat' s' end
      else
        λ s, match s with
             | EmptyString => false
             | String d s' => Ascii.eqb c d && glob pat' s'
             end
  end.

Definition fnmatch (filename pat : string) : bool := glob pat filename.

(** The rule of the runner the file's header points to
    (kubeflow/testing, [run_e2e_workflow.py]): an entry is skipped when it
    lists job types and the job's type is not among them; for a presubmit
    or postsubmit job it is also skipped when it has [include_dirs] and no
    changed file matches one of them. *)
Definition dir_modified (changed : list string) (w : workflow) : bool :=
  existsb (λ pat, existsb (λ f, fnmatch f pat) changed) (include_dirs w).

Definition listed (jt : job_type) (w : workflow) : bool :=
  match job_types w with
  | [] => true
  | jts => existsb (job_type_eqb jt) jts
  end.

Definition runs (jt : job_type) (changed : list string) (w : workflow) : bool :=
  listed jt w &&
  match jt, include_dirs w with
  | periodic, _ | _, [] => true
  | _, _ => dir_modified changed w
  end.

Definition triggered (jt : job_type) (changed : list string) : list string :=
  name <$> List.filter (runs jt changed) workflows.

(** [f] is a path below directory [d]. *)
Definition under (d f : string) : bool := String.prefix (d +:+ "/") f.

(** The example directories the file knows, in the order of its entries. *)
Definition example_dirs : list string :=
  omap (λ w, example_dir (name w)) workflows.

(** A pattern without wildcards. *)
Fixpoint literal (pat : string) : bool :=
  match pat with
  | EmptyString => true
  | String c pat' =>
      negb (Ascii.eqb c "*"%char) && negb (Ascii.eqb c "?"%char) && literal pat'
  end.

(** Two strings that differ at a position both have: nothing starts with
    both. *)
Fixpoint clash (p q : string) : bool :=
  match p, q with
  | String a p', String b q' => negb (Ascii.eqb a b) || clash p' q'
  | _, _ => false
  end.
End Prow.

(* ===================================================================== *)
(** ** Predicates on runs *)
(* ===================================================================== *)

Section Runs.
Context {estimator : Type}.

(** [m] lets every exception through: a run that returns made only calls
    that returned; a run that raises [e] ends with the call that raised
    [e], and no call before it raised. *)
Definition uncaught {S A} (m : M estimator S A) : Prop := ∀ s,
  match m s with
  | (Ok _, _, evs) => Forall quiet evs
  | (Raise e, _, evs) =>
      ∃ c evs0, evs = evs0 ++ [(c, Some e)] ∧ Forall quiet evs0
  end.

(** The library entry point behind a call, without its arguments. *)
Inductive kind : Type :=
| K_make_regression | K_train_test_split | K_SimpleImputer | K_fit_transform
| K_transform | K_XGBRegressor | K_fit | K_predict | K_item
| K_mean_absolute_error | K_print | K_logging_info | K_joblib_dump
| K_joblib_load.

Definition kind_of (c : call estimator) : kind :=
  match c with
  | Call_make_regression _ _ _ => K_make_regression
  | Call_train_test_split _ _ _ _ => K_train_test_split
  | Call_SimpleImputer => K_SimpleImputer
  | Call_fit_transform _ => K_fit_transform
  | Call_transform _ => K_transform
  | Call_XGBRegressor _ _ => K_XGBRegressor
  | Call_fit _ _ _ _ _ => K_fit
  | Call_predict _ _ => K_predict
  | Call_item _ _ => K_item
  | Call_mean_absolute_error _ _ => K_mean_absolute_error
  | Call_print _ => K_print
  | Call_logging_info _ _ => K_logging_info
  | Call_joblib_dump _ _ => K_joblib_dump
  | Call_joblib_load _ => K_joblib_load
  end.

Definition kinds (evs : list (event estimator)) : list kind :=
  (λ ev, kind_of ev.1) <$> evs.

(** [m] works through [script]: a run that returns made exactly the calls
    of [script], in order; a run that raises stopped somewhere in it. *)
Definition follows {S A} (script : list kind) (m : M estimator S A) : Prop := ∀ s,
  match m s with
  | (Ok _, _, evs) => kinds evs = script
  | (Raise _, _, evs) => kinds evs `prefix_of` script
  end.

(** The [joblib.dump] and [joblib.load] entries of a log: the file writes
    and file reads. *)
Definition dumps (evs : list (event estimator)) : list (event estimator) :=
  List.filter is_dump evs.
Definition loads (evs : list (event estimator)) : list (event estimator) :=
  List.filter is_load evs.
End Runs.

#[global] Instance kind_eq_dec : EqDecision kind.
Proof. solve_decision. Defined.

(** What [HousingServe.train] does, step by step. *)
Definition read_synthetic_input_script : list kind :=
  [K_make_regression; K_train_test_split; K_SimpleImputer; K_fit_transform;
   K_transform].
Definition train_model_script : list kind := [K_XGBRegressor; K_fit; K_print].
Definition eval_model_script : list kind :=
  [K_predict; K_mean_absolute_error; K_logging_info].
Definition save_model_script : list kind := [K_joblib_dump; K_logging_info].

Definition train_script : list kind :=
  read_synthetic_input_script ++ train_model_script ++ eval_model_script
  ++ save_model_script.

(* ===================================================================== *)
(** ** Exceptions *)
(* ===================================================================== *)

Section Uncaught.
Context {estimator payload : Type} (L : Library estimator payload).

Lemma uncaught_ret {S A} (a : A) : uncaught (ret (estimator := estimator) (S := S) a).
Proof. intros s. simpl. constructor. Qed.

Lemma uncaught_libcall {S A} (c : call estimator) (r : result A) :
  uncaught (libcall (estimator := estimator) (S := S) c r).
Proof.
  intros s. unfold libcall. destruct r as [a|e]; simpl.
  - repeat constructor.
  - exists c, []. split; [reflexivity | constructor].
Qed.

Lemma uncaught_bind {S A B} (m : M estimator S A) (k : A → M estimator S B) :
  uncaught m → (∀ a, uncaught (k a)) → uncaught (bind m k).
Proof.
  intros Hm Hk s. unfold bind. specialize (Hm s).
  destruct (m s) as [[[a|e] s1] ev1]; [| exact Hm].
  specialize (Hk a s1). destruct (k a s1) as [[[b|e] s2] ev2].
  - apply Forall_app; split; assumption.
  - destruct Hk as (c & evs0 & -> & Hq).
    exists c, (ev1 ++ evs0). split; [by rewrite app_assoc |].
    apply Forall_app; split; assumption.
Qed.

Lemma uncaught_get {S} : uncaught (get (estimator := estimator) (S := S)).
Proof. intros s. simpl. constructor. Qed.

Lemma uncaught_randcall {A} (c : call estimator) (f : N → result A * N) :
  uncaught (randcall (payload := payload) c f).
Proof.
  intros w. unfold randcall. destruct (f (rng w)) as [[a|e] s]; simpl.
  - repeat constructor.
  - exists c, []. split; [reflexivity | constructor].
Qed.

Lemma uncaught_joblib_dump o filename : uncaught (joblib_dump L o filename).
Proof.
  intros w. unfold joblib_dump. destruct (lib_dump L o filename); simpl.
  - repeat constructor.
  - eexists _, []. split; [reflexivity | constructor].
Qed.

Lemma uncaught_joblib_load filename : uncaught (joblib_load L filename).
Proof.
  intros w. unfold joblib_load.
  destruct (read_object L w filename) as [o|e]; simpl.
  - repeat constructor.
  - eexists _, []. split; [reflexivity | constructor].
Qed.

Lemma uncaught_on_world {A} (m : M estimator (world payload) A) :
  uncaught m → uncaught (on_world m).
Proof.
  intros Hm [self w]. unfold on_world. simpl. specialize (Hm w).
  destruct (m w) as [[[a|e] w1] evs]; exact Hm.
Qed.

Lemma uncaught_get_self : uncaught (get_self (estimator := estimator) (payload := payload)).
Proof. intros s. simpl. constructor. Qed.

Lemma uncaught_set_model o :
  uncaught (set_model (estimator := estimator) (payload := payload) o).
Proof. intros s. simpl. constructor. Qed.

(** With a handler in the way the property is lost. *)
Lemma try_except_swallows {S} (s : S) (c : call estimator) e :
  ¬ uncaught (S := S) (try_except (libcall c (Raise e)) (λ _, ret tt)).
Proof.
  intros H. specialize (H s). simpl in H.
  apply Forall_cons in H as [Hq _]. discriminate Hq.
Qed.
Create HintDb uncaught discriminated.
Hint Resolve uncaught_ret uncaught_libcall uncaught_get uncaught_randcall
  uncaught_joblib_dump uncaught_joblib_load uncaught_get_self
  uncaught_set_model : uncaught.

Ltac uncaught_step :=
  lazymatch goal with
  | |- uncaught (bind _ _) => apply uncaught_bind; [| intros ?]
  | |- uncaught (on_world _) => apply uncaught_on_world
  | |- uncaught (let '(_, _) := ?p in _) => destruct p
  | |- uncaught (if ?b then _ else _) => destruct b
  | |- uncaught (match ?x with _ => _ end) => destruct x
  | |- _ => solve [auto with uncaught]
  end.

Ltac uncaught_run := repeat uncaught_step.

Lemma uncaught_print {S} args : uncaught (print (estimator := estimator) (S := S) args).
Proof. apply uncaught_libcall. Qed.

Lemma uncaught_logging_info {S} fmt args :
  uncaught (logging_info (estimator := estimator) (S := S) fmt args).
Proof. apply uncaught_libcall. Qed.

Hint Resolve uncaught_print uncaught_logging_info : uncaught.

Lemma uncaught_read_synthetic_input test_size :
  uncaught (read_synthetic_input L test_size).
Proof. unfold read_synthetic_input. uncaught_run. Qed.

Lemma uncaught_train_model {S} train_X train_y test_X test_y n lr :
  uncaught (train_model L (S := S) train_X train_y test_X test_y n lr).
Proof. unfold train_model. uncaught_run. Qed.

Lemma uncaught_eval_model {S} o test_X test_y :
  uncaught (eval_model L (S := S) o test_X test_y).
Proof. unfold eval_model. uncaught_run. Qed.

Lemma uncaught_save_model o path : uncaught (save_model L o path).
Proof. unfold save_model. uncaught_run. Qed.

Hint Resolve uncaught_read_synthetic_input uncaught_train_model
  uncaught_eval_model uncaught_save_model : uncaught.

Lemma uncaught_train : uncaught (HousingServe_train L).
Proof. unfold HousingServe_train. uncaught_run. Qed.

Lemma uncaught_predict X feature_names :
  uncaught (HousingServe_predict L X feature_names).
Proof. unfold HousingServe_predict. uncaught_run. Qed.

(** An exception in the log is the run's outcome and its last entry. *)
Lemma uncaught_raise_last {S A} (m : M estimator S A) s r s' c e evs1 evs2 :
  uncaught m →
  m s = (r, s', evs1 ++ (c, Some e) :: evs2) →
  r = Raise e ∧ evs2 = [].
Proof.
  intros Hm Hrun. specialize (Hm s). rewrite Hrun in Hm.
  destruct r as [a|e'].
  - apply Forall_app in Hm as [_ Hm]. apply Forall_cons in Hm as [Hq _].
    discriminate Hq.
  - destruct Hm as (c' & evs0 & Heq & Hq).
    destruct evs2 as [|ev evs2 _] using rev_ind.
    + apply app_inj_tail in Heq as [_ Heq]. by inversion Heq.
    + exfalso. rewrite app_comm_cons, app_assoc in Heq.
      apply app_inj_tail in Heq as [<- _].
      apply Forall_app in Hq as [_ Hq]. apply Forall_cons in Hq as [Hq _].
      discriminate Hq.
Qed.

(** C4. No operation of the notebook catches an exception: when a library
    call inside [HousingServe.train], [HousingServe.predict],
    [train_model], [eval_model] or [save_model] raises [e], no further
    call is made and the operation itself raises [e] to its caller.  The
    exception type [exn] has no constructor of the notebook's own, and
    the operations are built without [try_except]. *)
Theorem exceptions_propagate (c : call estimator) (e : exn)
    (evs1 evs2 : list (event estimator)) :
  (∀ s r s',
     HousingServe_train L s = (r, s', evs1 ++ (c, Some e) :: evs2) →
     r = Raise e ∧ evs2 = []) ∧
  (∀ X feature_names s r s',
     HousingServe_predict L X feature_names s
     = (r, s', evs1 ++ (c, Some e) :: evs2) →
     r = Raise e ∧ evs2 = []) ∧
  (∀ train_X train_y test_X test_y n lr (w : world payload) r w',
     train_model L train_X train_y test_X test_y n lr w
     = (r, w', evs1 ++ (c, Some e) :: evs2) →
     r = Raise e ∧ evs2 = []) ∧
  (∀ o test_X test_y (w : world payload) r w',
     eval_model L o test_X test_y w = (r, w', evs1 ++ (c, Some e) :: evs2) →
     r = Raise e ∧ evs2 = []) ∧
  (∀ o path w r w',
     save_model L o path w = (r, w', evs1 ++ (c, Some e) :: evs2) →
     r = Raise e ∧ evs2 = []).
Proof.
  split; [| split; [| split; [| split]]]; intros;
    (eapply uncaught_raise_last; [| eassumption]);
    auto using uncaught_train, uncaught_predict with uncaught.
Qed.
End Uncaught.

(* ===================================================================== *)
(** ** Inversion of runs that return *)
(* ===================================================================== *)

Section Inversion.
Context {estimator payload : Type} (L : Library estimator payload).
Implicit Types (c : call estimator) (evs : list (event estimator)).

Lemma bind_Ok {S A B} (m : M estimator S A) (k : A → M estimator S B) s b s' evs :
  bind m k s = (Ok b, s', evs) →
  ∃ a s1 ev1 ev2,
    m s = (Ok a, s1, ev1) ∧ k a s1 = (Ok b, s', ev2) ∧ evs = ev1 ++ ev2.
Proof.
  unfold bind. destruct (m s) as [[[a|e] s1] ev1]; [| discriminate].
  destruct (k a s1) as [[r s2] ev2] eqn:Hk. intros [= -> -> <-].
  by exists a, s1, ev1, ev2.
Qed.

Lemma ret_Ok {S A} (a b : A) (s s' : S) evs :
  ret a s = (Ok b, s', evs) → b = a ∧ s' = s ∧ evs = [].
Proof. by intros [= -> -> <-]. Qed.

Lemma libcall_Ok {S A} c (r : result A) (s s' : S) a evs :
  libcall c r s = (Ok a, s', evs) → r = Ok a ∧ s' = s ∧ evs = [(c, None)].
Proof. unfold libcall. by intros [= -> -> <-]. Qed.

Lemma randcall_Ok {A} c (f : N → result A * N) (w w' : world payload) a evs :
  randcall c f w = (Ok a, w', evs) →
  ∃ s, f (rng w) = (Ok a, s) ∧ w' = set_rng s w ∧ evs = [(c, None)].
Proof.
  unfold randcall. destruct (f (rng w)) as [r s]. intros [= -> <- <-].
  by exists s.
Qed.

Lemma joblib_dump_Ok o filename (w w' : world payload) u evs :
  joblib_dump L o filename w = (Ok u, w', evs) →
  ∃ bytes, lib_dump L o filename = Ok bytes ∧
           w' = set_fs (<[filename := bytes]> (fs w)) w ∧
           evs = [(Call_joblib_dump o filename, None)].
Proof.
  unfold joblib_dump. destruct (lib_dump L o filename) as [bytes|e];
    [| discriminate].
  intros [= _ <- <-]. by exists bytes.
Qed.

Lemma on_world_Ok {A} (m : M estimator (world payload) A) self w a s' evs :
  on_world m (self, w) = (Ok a, s', evs) →
  ∃ w', m w = (Ok a, w', evs) ∧ s' = (self, w').
Proof.
  unfold on_world. simpl. destruct (m w) as [[r w1] ev1].
  intros [= -> <- <-]. by exists w1.
Qed.

Lemma get_self_Ok (s s' : HousingServe estimator * world payload) self evs :
  get_self s = (Ok self, s', evs) → self = s.1 ∧ s' = s ∧ evs = [].
Proof. by intros [= <- <- <-]. Qed.
End Inversion.

Ltac inv_ok_step :=
  match goal with
  | H : bind _ _ _ = (Ok _, _, _) |- _ =>
      apply bind_Ok in H as (? & ? & ? & ? & ? & H & ->)
  | H : ret _ _ = (Ok _, _, _) |- _ =>
      apply ret_Ok in H as (? & ? & ?); simplify_eq
  | H : get_self _ = (Ok _, _, _) |- _ =>
      apply get_self_Ok in H as (? & ? & ?); simplify_eq
  | H : libcall _ _ _ = (Ok _, _, _) |- _ =>
      apply libcall_Ok in H as (? & ? & ?); simplify_eq
  | H : randcall _ _ _ = (Ok _, _, _) |- _ =>
      apply randcall_Ok in H as (? & ? & -> & ->)
  | H : joblib_dump _ _ _ _ = (Ok _, _, _) |- _ =>
      apply joblib_dump_Ok in H as (? & ? & -> & ->)
  | H : on_world _ (_, _) = (Ok _, _, _) |- _ =>
      apply on_world_Ok in H as (? & H & ->)
  | H : (let '(_, _) := ?p in _) _ = _ |- _ => destruct p
  end.

Ltac inv_ok := repeat (inv_ok_step; simpl in * ).

(* ===================================================================== *)
(** ** The steps of [train] *)
(* ===================================================================== *)

Section Steps.
Context {estimator payload : Type} (L : Library estimator payload).
Implicit Types (c : call estimator) (evs : list (event estimator)).

Lemma follows_ret {S A} (a : A) : follows [] (ret (estimator := estimator) (S := S) a).
Proof. intros s. reflexivity. Qed.

Lemma follows_libcall {S A} c (r : result A) k :
  kind_of c = k → follows [k] (libcall (S := S) c r).
Proof. intros <- s. unfold libcall. destruct r; simpl; reflexivity. Qed.

Lemma follows_randcall {A} c (f : N → result A * N) k :
  kind_of c = k → follows [k] (randcall (payload := payload) c f).
Proof.
  intros <- w. unfold randcall.
  destruct (f (rng w)) as [[a|e] s]; reflexivity.
Qed.

Lemma follows_joblib_dump o filename :
  follows [K_joblib_dump] (joblib_dump L o filename).
Proof.
  intros w. unfold joblib_dump.
  destruct (lib_dump L o filename); reflexivity.
Qed.

Lemma follows_get_self :
  follows [] (get_self (estimator := estimator) (payload := payload)).
Proof. intros s. reflexivity. Qed.

Lemma follows_on_world {A} script (m : M estimator (world payload) A) :
  follows script m → follows script (on_world m).
Proof.
  intros Hm [self w]. unfold on_world. simpl. specialize (Hm w).
  destruct (m w) as [[[a|e] w1] evs]; exact Hm.
Qed.

Lemma follows_bind {S A B} script1 script2 script
    (m : M estimator S A) (k : A → M estimator S B) :
  follows script1 m → (∀ a, follows script2 (k a)) →
  script = script1 ++ script2 →
  follows script (bind m k).
Proof.
  intros Hm Hk -> s. unfold bind. specialize (Hm s).
  destruct (m s) as [[[a|e] s1] ev1].
  - specialize (Hk a s1). destruct (k a s1) as [[[b|e] s2] ev2];
      unfold kinds in *; rewrite fmap_app, Hm.
    + by rewrite Hk.
    + by apply prefix_app.
  - by apply prefix_app_r.
Qed.

Ltac follows_run :=
  lazymatch goal with
  | |- follows _ (bind _ _) =>
      eapply follows_bind; [follows_run | intros ?; follows_run | reflexivity]
  | |- follows _ (on_world _) => apply follows_on_world; follows_run
  | |- follows _ (let '(_, _) := ?p in _) => destruct p; follows_run
  | |- follows _ (ret _) => apply follows_ret
  | |- follows _ (get_self) => apply follows_get_self
  | |- follows _ (libcall _ _) => eapply follows_libcall; simpl; reflexivity
  | |- follows _ (randcall _ _) => eapply follows_randcall; simpl; reflexivity
  | |- follows _ (joblib_dump _ _ _) => apply follows_joblib_dump
  | |- follows _ (?f _) => unfold f; follows_run
  | |- follows _ ?f => unfold f; follows_run
  end.

Lemma follows_read_synthetic_input test_size :
  follows read_synthetic_input_script (read_synthetic_input L test_size).
Proof. unfold read_synthetic_input. follows_run. Qed.

Lemma follows_train_model {S} train_X train_y test_X test_y n lr :
  follows train_model_script
          (train_model L (S := S) train_X train_y test_X test_y n lr).
Proof. unfold train_model, print. follows_run. Qed.

Lemma follows_eval_model {S} o test_X test_y :
  follows eval_model_script (eval_model L (S := S) o test_X test_y).
Proof. unfold eval_model, logging_info. follows_run. Qed.

Lemma follows_save_model o path :
  follows save_model_script (save_model L o path).
Proof. unfold save_model, logging_info. follows_run. Qed.

Lemma follows_train : follows train_script (HousingServe_train L).
Proof.
  unfold HousingServe_train.
  eapply follows_bind; [apply follows_get_self | intros self | reflexivity].
  eapply follows_bind;
    [apply follows_on_world, follows_read_synthetic_input | | reflexivity].
  intros [[train_X train_y] [test_X test_y]].
  eapply follows_bind; [apply follows_train_model | intros m | reflexivity].
  eapply follows_bind; [apply follows_eval_model | intros _ | reflexivity].
  apply follows_on_world, follows_save_model.
Qed.
End Steps.

Section Train.
Context {estimator payload : Type} (L : Library estimator payload).
Implicit Types (self : HousingServe estimator) (w : world payload).

(** The two helpers that only call libraries leave the state alone. *)
Lemma train_model_state {S} train_X train_y test_X test_y n lr (s : S) :
  (train_model L train_X train_y test_X test_y n lr s).1.2 = s.
Proof.
  unfold train_model, print, bind, libcall, ret.
  destruct (lib_XGBRegressor L n lr) as [m0|e]; [| reflexivity].
  destruct (lib_fit L m0 train_X train_y 40 [(test_X, test_y)]);
    reflexivity.
Qed.

Lemma eval_model_state {S} o test_X test_y (s : S) :
  (eval_model L o test_X test_y s).1.2 = s.
Proof.
  unfold eval_model, logging_info, bind, libcall.
  destruct (obj_predict L o test_X) as [p|e]; [| reflexivity].
  destruct (lib_mean_absolute_error L p test_y); reflexivity.
Qed.

(** A run of [train] that returns is the four helper runs in a row. *)
Lemma train_returns self w s' evs :
  HousingServe_train L (self, w) = (Ok tt, s', evs) →
  ∃ train_X train_y test_X test_y m w1 w2 ev_a ev_b ev_e ev_c,
    read_synthetic_input L default_test_size w
    = (Ok ((train_X, train_y), (test_X, test_y)), w1, ev_a) ∧
    train_model L train_X train_y test_X test_y
                (n_estimators self) (learning_rate self) (self, w1)
    = (Ok m, (self, w1), ev_b) ∧
    eval_model L (PyEstimator m) test_X test_y (self, w1)
    = (Ok tt, (self, w1), ev_e) ∧
    save_model L (PyEstimator m) (model_file self) w1 = (Ok tt, w2, ev_c) ∧
    evs = ev_a ++ ev_b ++ ev_e ++ ev_c ∧
    s' = (self, w2).
Proof.
  intros Hrun. unfold HousingServe_train in Hrun.
  apply bind_Ok in Hrun as (self0 & s0 & ev0 & ev0' & Hself & Hrun & ->).
  apply get_self_Ok in Hself as (-> & -> & ->). simpl in Hrun.
  apply bind_Ok in Hrun as (data & s1 & ev_a & ev1 & Ha & Hrun & ->).
  apply on_world_Ok in Ha as (w1 & Ha & ->).
  destruct data as [[train_X train_y] [test_X test_y]].
  apply bind_Ok in Hrun as (m & s2 & ev_b & ev2 & Hb & Hrun & ->).
  apply bind_Ok in Hrun as ([] & s3 & ev_e & ev_c & He & Hc & ->).
  pose proof (train_model_state train_X train_y test_X test_y
                (n_estimators self) (learning_rate self) (self, w1)) as Hs2.
  rewrite Hb in Hs2. simpl in Hs2. subst s2.
  pose proof (eval_model_state (PyEstimator m) test_X test_y (self, w1)) as Hs3.
  rewrite He in Hs3. simpl in Hs3. subst s3.
  apply on_world_Ok in Hc as (w2 & Hc & ->).
  exists train_X, train_y, test_X, test_y, m, w1, w2, ev_a, ev_b, ev_e, ev_c.
  done.
Qed.

(** C2. [HousingServe.train] performs, in this order and nothing else:
    the calls of [read_synthetic_input] (generate and split the data),
    those of [train_model] on the training split (construct, [fit],
    report), those of [eval_model] on the test split, and those of
    [save_model] on [self.model_file].  Every run is a prefix of that
    script.  A run that returns has made exactly the thirteen calls listed,
    none of which raised, each on the value the library returned to an
    earlier one: the estimator that is evaluated and serialized is the one
    [fit] returned for the estimator the constructor built from the
    object's own parameters, fitted on the imputed training split with the
    test split as evaluation set.  Afterwards the object is as it was, and
    the machine differs only in the generator state and in
    [self.model_file], which holds what the serializer made of the fitted
    estimator. *)
Theorem train_steps :
  follows train_script (HousingServe_train L) ∧
  ∀ self w s' evs,
    HousingServe_train L (self, w) = (Ok tt, s', evs) →
    ∃ X y s1 raw_train_X raw_test_X s2 imputer train_X train_y test_X test_y
      m0 m predictions mae bytes,
      lib_make_regression L 200 5 (1 # 10) (rng w) = (Ok (X, y), s1) ∧
      lib_train_test_split L X y default_test_size false s1
      = (Ok (raw_train_X, raw_test_X, train_y, test_y), s2) ∧
      lib_fit_transform L raw_train_X = Ok (imputer, train_X) ∧
      lib_transform L imputer raw_test_X = Ok test_X ∧
      lib_XGBRegressor L (n_estimators self) (learning_rate self) = Ok m0 ∧
      lib_fit L m0 train_X train_y 40 [(test_X, test_y)] = Ok m ∧
      lib_predict L m test_X = Ok predictions ∧
      lib_mean_absolute_error L predictions test_y = Ok mae ∧
      lib_dump L (PyEstimator m) (model_file self) = Ok bytes ∧
      evs =
        (λ c, (c, None)) <$>
        [Call_make_regression 200 5 (1 # 10);
         Call_train_test_split X y default_test_size false;
         Call_SimpleImputer;
         Call_fit_transform raw_train_X;
         Call_transform raw_test_X;
         Call_XGBRegressor (n_estimators self) (learning_rate self);
         Call_fit m0 train_X train_y 40 [(test_X, test_y)];
         Call_print [AStr "Best RMSE on eval: %.2f with %d rounds";
                     AFloat (lib_best_score L m);
                     AInt (lib_best_iteration L m + 1)];
         Call_predict (PyEstimator m) test_X;
         Call_mean_absolute_error predictions test_y;
         Call_logging_info "mean_absolute_error=%.2f" [AFloat mae];
         Call_joblib_dump (PyEstimator m) (model_file self);
         Call_logging_info "Model export success: %s" [AStr (model_file self)]] ∧
      s' = (self, {| fs := <[model_file self := bytes]> (fs w);
                     environ := environ w;
                     rng := s2 |}).
Proof.
  split; [apply follows_train |].
  intros self w s' evs Hrun.
  apply train_returns in Hrun
    as (train_X & train_y & test_X & test_y & m & w1 & w2
        & ev_a & ev_b & ev_e & ev_c & Ha & Hb & He & Hc & -> & ->).
  (* what each helper obtained from the libraries, from its run *)
  assert (∃ X y s1 raw_train_X raw_test_X s2 imputer,
            lib_make_regression L 200 5 (1 # 10) (rng w) = (Ok (X, y), s1) ∧
            lib_train_test_split L X y default_test_size false s1
            = (Ok (raw_train_X, raw_test_X, train_y, test_y), s2) ∧
            lib_fit_transform L raw_train_X = Ok (imputer, train_X) ∧
            lib_transform L imputer raw_test_X = Ok test_X ∧
            ev_a = (λ c, (c, None)) <$>
                   [Call_make_regression 200 5 (1 # 10);
                    Call_train_test_split X y default_test_size false;
                    Call_SimpleImputer;
                    Call_fit_transform raw_train_X;
                    Call_transform raw_test_X] ∧
            w1 = {| fs := fs w; environ := environ w; rng := s2 |})
    as (X & y & s1 & raw_train_X & raw_test_X & s2 & imputer
        & HX & Hsplit & Hfit_tr & Htr & -> & ->).
  { clear Hb He Hc. unfold read_synthetic_input in Ha. inv_ok.
    by eexists _, _, _, _, _, _, _. }
  assert (∃ m0,
            lib_XGBRegressor L (n_estimators self) (learning_rate self) = Ok m0 ∧
            lib_fit L m0 train_X train_y 40 [(test_X, test_y)] = Ok m ∧
            ev_b = (λ c, (c, None)) <$>
                   [Call_XGBRegressor (n_estimators self) (learning_rate self);
                    Call_fit m0 train_X train_y 40 [(test_X, test_y)];
                    Call_print [AStr "Best RMSE on eval: %.2f with %d rounds";
                                AFloat (lib_best_score L m);
                                AInt (lib_best_iteration L m + 1)]])
    as (m0 & Hm0 & Hm & ->).
  { clear Ha He Hc. unfold train_model, print in Hb. inv_ok. by eexists. }
  assert (∃ predictions mae,
            lib_predict L m test_X = Ok predictions ∧
            lib_mean_absolute_error L predictions test_y = Ok mae ∧
            ev_e = (λ c, (c, None)) <$>
                   [Call_predict (PyEstimator m) test_X;
                    Call_mean_absolute_error predictions test_y;
                    Call_logging_info "mean_absolute_error=%.2f" [AFloat mae]])
    as (predictions & mae & Hp & Hmae & ->).
  { clear Ha Hb Hc. unfold eval_model, logging_info in He. inv_ok.
    by eexists _, _. }
  assert (∃ bytes,
            lib_dump L (PyEstimator m) (model_file self) = Ok bytes ∧
            ev_c = (λ c, (c, None)) <$>
                   [Call_joblib_dump (PyEstimator m) (model_file self);
                    Call_logging_info "Model export success: %s"
                      [AStr (model_file self)]] ∧
            w2 = {| fs := <[model_file self := bytes]> (fs w);
                    environ := environ w; rng := s2 |})
    as (bytes & Hbytes & -> & ->).
  { clear Ha Hb He. unfold save_model, logging_info in Hc. inv_ok.
    by eexists. }
  exists X, y, s1, raw_train_X, raw_test_X, s2, imputer, train_X, train_y,
    test_X, test_y, m0, m, predictions, mae, bytes.
  by rewrite <- !fmap_app.
Qed.
End Train.

(* ===================================================================== *)
(** ** Files *)
(* ===================================================================== *)

Section Files.
Context {estimator payload : Type} (L : Library estimator payload).
Implicit Types (self : HousingServe estimator) (w : world payload)
  (evs : list (event estimator)).

Lemma dumps_app evs1 evs2 : dumps (evs1 ++ evs2) = dumps evs1 ++ dumps evs2.
Proof. apply List.filter_app. Qed.

(** Counting dumps in a log is counting [K_joblib_dump] among its kinds. *)
Lemma dumps_kinds evs :
  length (dumps evs)
  = length (List.filter (λ k, bool_decide (k = K_joblib_dump)) (kinds evs)).
Proof.
  induction evs as [|[c out] evs IH]; [reflexivity |].
  unfold dumps, kinds in *. simpl. destruct c; simpl; by rewrite ?IH.
Qed.

Lemma dumps_of_prefix evs script :
  kinds evs `prefix_of` script →
  length (dumps evs)
  ≤ length (List.filter (λ k, bool_decide (k = K_joblib_dump)) script).
Proof.
  intros [rest ->]. rewrite dumps_kinds, List.filter_app, length_app. lia.
Qed.

Lemma read_synthetic_input_fs test_size w :
  fs (read_synthetic_input L test_size w).1.2 = fs w.
Proof.
  unfold read_synthetic_input, bind, randcall, libcall, ret.
  destruct (lib_make_regression L 200 5 (1 # 10) (rng w))
    as [[[X y]|e] s1]; [| reflexivity]. simpl.
  destruct (lib_train_test_split L X y test_size false s1)
    as [[[[[a b] c] d]|e] s2]; [| reflexivity]. simpl.
  destruct (lib_fit_transform L a) as [[stats a']|e]; [| reflexivity].
  destruct (lib_transform L stats b); reflexivity.
Qed.

Lemma save_model_fs o path w p :
  p ≠ path → fs (save_model L o path w).1.2 !! p = fs w !! p.
Proof.
  intros Hp. unfold save_model, bind, joblib_dump, logging_info, libcall.
  destruct (lib_dump L o path); simpl; [by rewrite lookup_insert_ne |].
  destruct (lib_dump_partial L o path); simpl; [| reflexivity].
  by rewrite lookup_insert_ne.
Qed.

Lemma train_fs self w p :
  p ≠ model_file self →
  fs (HousingServe_train L (self, w)).1.2.2 !! p = fs w !! p.
Proof.
  intros Hp. unfold HousingServe_train.
  unfold bind at 1. simpl. unfold bind at 1. unfold on_world at 1. simpl.
  pose proof (read_synthetic_input_fs default_test_size w) as Ha.
  destruct (read_synthetic_input L default_test_size w)
    as [[[[[train_X train_y] [test_X test_y]]|e] w1] ev_a];
    simpl in Ha; [| simpl; by rewrite Ha].
  unfold bind at 1.
  pose proof (train_model_state L train_X train_y test_X test_y
                (n_estimators self) (learning_rate self) (self, w1)) as Hb.
  destruct (train_model L train_X train_y test_X test_y
              (n_estimators self) (learning_rate self) (self, w1))
    as [[[m|e] s2] ev_b]; simpl in Hb; subst s2; [| simpl; by rewrite Ha].
  unfold bind at 1.
  pose proof (eval_model_state L (PyEstimator m) test_X test_y (self, w1)) as He.
  destruct (eval_model L (PyEstimator m) test_X test_y (self, w1))
    as [[[[]|e] s3] ev_e]; simpl in He; subst s3; [| simpl; by rewrite Ha].
  unfold on_world. simpl.
  pose proof (save_model_fs (PyEstimator m) (model_file self) w1 p Hp) as Hc.
  destruct (save_model L (PyEstimator m) (model_file self) w1)
    as [[r w2] ev_c]; simpl in *. by rewrite Hc, Ha.
Qed.
Lemma no_dumps {S A} script (m : M estimator S A) s :
  follows script m →
  List.filter (λ k, bool_decide (k = K_joblib_dump)) script = [] →
  dumps (m s).2 = [].
Proof.
  intros Hm Hscript. specialize (Hm s).
  destruct (m s) as [[r s'] evs]. simpl.
  assert (kinds evs `prefix_of` script) as Hpre.
  { destruct r; [by rewrite Hm | done]. }
  apply dumps_of_prefix in Hpre. rewrite Hscript in Hpre.
  destruct (dumps evs); [done | simpl in Hpre; lia].
Qed.

Lemma save_model_returns o path w w' evs :
  save_model L o path w = (Ok tt, w', evs) →
  ∃ bytes, lib_dump L o path = Ok bytes ∧
           w' = set_fs (<[path := bytes]> (fs w)) w ∧
           evs = [(Call_joblib_dump o path, None);
                  (Call_logging_info "Model export success: %s" [AStr path], None)].
Proof.
  unfold save_model, logging_info. intros Hrun. inv_ok.
  eexists. split; [eassumption | done].
Qed.

(** C5. The model artifact is one file.  [save_model] makes one
    [joblib.dump] call, on [model_file]; every other path keeps its
    contents, and when it returns [model_file] holds what the library's
    serializer produced for the model, an element of the abstract type
    [payload].  [HousingServe.train] makes at most one dump and touches no
    path but [self.model_file]; when it returns it has made exactly one,
    of the fitted estimator, to [self.model_file]. *)
Theorem single_model_file :
  (∀ o path w r w' evs,
     save_model L o path w = (r, w', evs) →
     (∃ out, dumps evs = [(Call_joblib_dump o path, out)]) ∧
     (∀ p, p ≠ path → fs w' !! p = fs w !! p) ∧
     (r = Ok tt →
      ∃ bytes, lib_dump L o path = Ok bytes ∧
               fs w' = <[path := bytes]> (fs w))) ∧
  (∀ self w r s' evs,
     HousingServe_train L (self, w) = (r, s', evs) →
     length (dumps evs) ≤ 1 ∧
     (∀ p, p ≠ model_file self → fs s'.2 !! p = fs w !! p) ∧
     (r = Ok tt →
      ∃ m bytes,
        dumps evs = [(Call_joblib_dump (PyEstimator m) (model_file self), None)] ∧
        lib_dump L (PyEstimator m) (model_file self) = Ok bytes ∧
        fs s'.2 = <[model_file self := bytes]> (fs w))).
Proof.
  split.
  - intros o path w r w' evs Hrun. split; [| split].
    + revert Hrun. unfold save_model, bind, joblib_dump, logging_info, libcall.
      destruct (lib_dump L o path); intros [= _ _ <-]; by eexists.
    + intros p Hp. pose proof (save_model_fs o path w p Hp) as Hfs.
      by rewrite Hrun in Hfs.
    + intros ->. apply save_model_returns in Hrun as (bytes & Hd & -> & _).
      by exists bytes.
  - intros self w r s' evs Hrun. split; [| split].
    + pose proof (follows_train L (self, w)) as Hf. rewrite Hrun in Hf.
      assert (kinds evs `prefix_of` train_script) as Hpre.
      { destruct r; [by rewrite Hf | done]. }
      by apply dumps_of_prefix in Hpre.
    + intros p Hp. pose proof (train_fs self w p Hp) as Hfs.
      by rewrite Hrun in Hfs.
    + intros ->.
      apply train_returns in Hrun
        as (train_X & train_y & test_X & test_y & m & w1 & w2
            & ev_a & ev_b & ev_e & ev_c & Ha & Hb & He & Hc & -> & ->).
      pose proof (read_synthetic_input_fs default_test_size w) as Hfs.
      rewrite Ha in Hfs. simpl in Hfs.
      pose proof (no_dumps _ _ w
                    (follows_read_synthetic_input L default_test_size)
                    eq_refl) as Da.
      pose proof (no_dumps _ _ (self, w1)
                    (follows_train_model L train_X train_y test_X test_y
                       (n_estimators self) (learning_rate self))
                    eq_refl) as Db.
      pose proof (no_dumps _ _ (self, w1)
                    (follows_eval_model L (PyEstimator m) test_X test_y)
                    eq_refl) as De.
      rewrite Ha in Da. rewrite Hb in Db. rewrite He in De. simpl in *.
      apply save_model_returns in Hc as (bytes & Hd & -> & ->).
      exists m, bytes. rewrite !dumps_app, Da, Db, De. simpl.
      by rewrite Hfs.
Qed.
End Files.

(* ===================================================================== *)
(** ** [HousingServe]: construction and prediction *)
(* ===================================================================== *)

Section Serve.
Context {estimator payload : Type} (L : Library estimator payload).
Implicit Types (self : HousingServe estimator) (w : world payload)
  (evs : list (event estimator)) (o : pyobj estimator).

(** C8. Constructing [HousingServe] always succeeds and leaves the machine
    as it was.  The new object has [n_estimators = 50],
    [learning_rate = 0.1] and [model = None].  Without a [model_file]
    argument, or with a falsy one, [self.model_file] is the value of the
    environment variable [MODEL_FILE] when it is set and
    ["mockup-model.dat"] otherwise; a truthy argument is stored as it is. *)
Theorem init_state (arg : option string) w :
  ∃ obj evs,
    HousingServe_init (estimator := estimator) arg w = (Ok obj, w, evs) ∧
    n_estimators obj = 50 ∧
    learning_rate obj = (1 # 10)%Q ∧
    model obj = PyNone ∧
    (supplied arg = false →
     ∀ v, environ w !! "MODEL_FILE" = Some v → model_file obj = v) ∧
    (supplied arg = false →
     environ w !! "MODEL_FILE" = None → model_file obj = "mockup-model.dat") ∧
    (∀ s, arg = Some s → s ≠ "" → model_file obj = s).
Proof.
  unfold HousingServe_init, bind, get, print, libcall, ret.
  destruct (supplied arg) eqn:Hsup; simpl.
  - eexists _, _. split; [reflexivity |]. simpl.
    repeat split; try discriminate.
    intros s -> _. reflexivity.
  - destruct (environ w !! "MODEL_FILE") as [v|] eqn:Henv; simpl;
      (eexists _, _; split; [reflexivity |]); simpl;
      repeat split; try congruence;
      intros s -> Hs; unfold supplied in Hsup;
      apply negb_false_iff, String.eqb_eq in Hsup; contradiction.
Qed.

(** C1. Let the library's [predict] return one value for each row.  Let
    [X] have at least one row, and let the object either hold an
    estimator already or have none loaded while [self.model_file] loads to
    an estimator; let the estimator's [predict] return [p] on [X].  Then
    [predict] returns [[[v, v]]] for [v] the first entry of [p], whatever
    the number of rows.  It calls [joblib.load] once, on
    [self.model_file], exactly when nothing was loaded, then the
    estimator's [predict] on [X], then reads entry 0 twice. *)
Theorem predict_first_item self w X feature_names (m : estimator) p :
  predict_one_per_row L →
  X ≠ [] →
  model self = PyEstimator m ∨
    (truthy (model self) = false ∧
     read_object L w (model_file self) = Ok (PyEstimator m)) →
  lib_predict L m X = Ok p →
  ∃ v s' evs,
    p !! 0 = Some v ∧
    HousingServe_predict L X feature_names (self, w) = (Ok [[v; v]], s', evs) ∧
    model s'.1 = PyEstimator m ∧
    evs = (if truthy (model self) then []
           else [(Call_joblib_load (model_file self), None)])
          ++ [(Call_predict (PyEstimator m) X, None);
              (Call_item p 0, None); (Call_item p 0, None)].
Proof.
  intros HL HX Hmodel Hp.
  assert (∃ v, p !! 0 = Some v) as [v Hv].
  { apply HL in Hp.
    destruct p as [|v p]; [| by exists v].
    destruct X; [done | discriminate]. }
  exists v.
  unfold HousingServe_predict, bind, get_self, on_world, joblib_load,
    set_model, libcall, ret, item, obj_predict.
  destruct self as [n lr path o]. simpl in *.
  destruct Hmodel as [-> | [Hfalsy Hload]]; simpl.
  - rewrite Hp, Hv. simpl. by eexists _, _.
  - rewrite Hfalsy. simpl. rewrite Hload. simpl. rewrite Hp, Hv. simpl.
    by eexists _, _.
Qed.
Lemma loads_app evs1 evs2 : loads (evs1 ++ evs2) = loads evs1 ++ loads evs2.
Proof. apply List.filter_app. Qed.

(** One call of [predict], from any state. *)
Lemma predict_call X feature_names self w :
  let '(_, s', evs) := HousingServe_predict L X feature_names (self, w) in
  s'.2 = w ∧ model_file s'.1 = model_file self ∧ dumps evs = [] ∧
  (truthy (model self) = true → s'.1 = self ∧ loads evs = []) ∧
  (truthy (model self) = false →
   loads evs = [(Call_joblib_load (model_file self),
                 raised (read_object L w (model_file self)))] ∧
   ∀ o, read_object L w (model_file self) = Ok o → model s'.1 = o).
Proof.
  destruct self as [n lr path o].
  unfold HousingServe_predict, bind, get_self, on_world, joblib_load,
    set_model, libcall, ret. simpl.
  destruct (truthy o) eqn:Ho; simpl.
  - destruct (obj_predict L o X) as [p|e]; simpl;
      [destruct (item p 0); simpl |]; by repeat split.
  - destruct (read_object L w path) as [o'|e'] eqn:Hread; simpl.
    + destruct (obj_predict L o' X) as [p|e]; simpl;
        [destruct (item p 0); simpl |];
        repeat split; try done; congruence.
    + by repeat split.
Qed.

(** With a truthy [self.model], calls change nothing and read nothing. *)
Lemma predict_each_cached Xs self w :
  truthy (model self) = true →
  (predict_each L Xs (self, w)).1 = (self, w) ∧
  loads (predict_each L Xs (self, w)).2 = [].
Proof.
  intros Ho. induction Xs as [|X Xs [IHs IHl]]; [done |].
  simpl. pose proof (predict_call X None self w) as Hcall.
  destruct (HousingServe_predict L X None (self, w)) as [[r [self1 w1]] ev1].
  destruct Hcall as (Hw & _ & _ & Hcached & _). simpl in Hw.
  destruct (Hcached Ho) as [Hself Hloads]. simpl in Hself. subst self1 w1.
  destruct (predict_each L Xs (self, w)) as [s2 ev2]. simpl in *.
  by rewrite loads_app, Hloads, IHl.
Qed.

(** C9, as the code has it.  [predict] loads from [self.model_file]
    exactly when [self.model] is falsy ([None], or an object whose truth
    value is [False]), once in that call; it changes neither the machine
    nor [self.model_file] and makes no dump.  While [self.model] is
    truthy, as every estimator is, any number of calls leaves the object
    as it is and reads no file.  So on an object with a falsy [model]
    whose file loads to a truthy object, a series of calls reads the file
    once, in the first call, and ends with that object as [self.model]. *)
Theorem predict_loads_when_falsy :
  (∀ X feature_names self w r s' evs,
     HousingServe_predict L X feature_names (self, w) = (r, s', evs) →
     s'.2 = w ∧ model_file s'.1 = model_file self ∧ dumps evs = [] ∧
     loads evs
     = if truthy (model self) then []
       else [(Call_joblib_load (model_file self),
              raised (read_object L w (model_file self)))]) ∧
  (∀ Xs self w s' evs,
     truthy (model self) = true →
     predict_each L Xs (self, w) = (s', evs) →
     s' = (self, w) ∧ loads evs = []) ∧
  (∀ X Xs self w o s' evs,
     truthy (model self) = false →
     read_object L w (model_file self) = Ok o →
     truthy o = true →
     predict_each L (X :: Xs) (self, w) = (s', evs) →
     model s'.1 = o ∧ s'.2 = w ∧
     loads evs = [(Call_joblib_load (model_file self), None)]).
Proof.
  split; [| split].
  - intros X feature_names self w r s' evs Hrun.
    pose proof (predict_call X feature_names self w) as Hcall.
    rewrite Hrun in Hcall. destruct Hcall as (Hw & Hpath & Hd & Ht & Hf).
    repeat split; try done.
    destruct (truthy (model self)); [by apply Ht | by apply Hf].
  - intros Xs self w s' evs Ho Hrun.
    pose proof (predict_each_cached Xs self w Ho) as [Hs Hl].
    by rewrite Hrun in Hs, Hl.
  - intros X Xs self w o s' evs Hfalsy Hread Ho Hrun. simpl in Hrun.
    pose proof (predict_call X None self w) as Hcall.
    destruct (HousingServe_predict L X None (self, w)) as [[r [self1 w1]] ev1].
    destruct Hcall as (Hw & _ & _ & _ & Hload). simpl in Hw. subst w1.
    destruct (Hload Hfalsy) as [Hl1 Hmodel]. specialize (Hmodel o Hread).
    simpl in Hmodel.
    assert (truthy (model self1) = true) as Ho1 by by rewrite Hmodel.
    pose proof (predict_each_cached Xs self1 w Ho1) as [Hs Hl].
    destruct (predict_each L Xs (self1, w)) as [s2 ev2].
    injection Hrun as <- <-. simpl in *. subst s2. simpl.
    by rewrite loads_app, Hl1, Hl, Hread.
Qed.
End Serve.

(* ===================================================================== *)
(** ** The synthetic data and its split *)
(* ===================================================================== *)

Section Split.
Context {estimator payload : Type} (L : Library estimator payload).

Lemma rectangular_take f k (X : ndarray) : rectangular f X → rectangular f (take k X).
Proof. apply Forall_take. Qed.

Lemma rectangular_drop f k (X : ndarray) : rectangular f X → rectangular f (drop k X).
Proof. apply Forall_drop. Qed.

Lemma nonempty_length {A} (l : list A) : 0 < length l → l ≠ [].
Proof. destruct l; simpl; [lia | done]. Qed.

(** C10, as the code has it.  [read_synthetic_input(test_size)] asks
    [make_regression] for 200 samples of 5 features and splits them with
    [shuffle=False].  For a fraction [t] that leaves rows on both sides:
    when the generator returns [(X, y)], the test set is the last
    [ceil(t * 200)] rows, the product being the floating-point one, and the
    training set is exactly the rows before them, in their order (and
    likewise the targets of [y]); together they are [X].  For the default
    0.25 these are 150 and 50 rows. *)
Theorem read_synthetic_input_split (t : Q) (w : world payload) X y s1 :
  LibrarySpec L →
  fraction t →
  0 < n_test_of t 200 < 200 →
  lib_make_regression L 200 5 (1 # 10) (rng w) = (Ok (X, y), s1) →
  let k := 200 - n_test_of t 200 in
  ∃ w' evs,
    read_synthetic_input L t w
    = (Ok ((take k X, take k y), (drop k X, drop k y)), w', evs) ∧
    evs.*1 !! 0 = Some (Call_make_regression 200 5 (1 # 10)) ∧
    evs.*1 !! 1 = Some (Call_train_test_split X y t false) ∧
    length X = 200 ∧ rectangular 5 X ∧
    take k X ++ drop k X = X ∧
    take k y ++ drop k y = y ∧
    length (take k X) = k ∧
    length (drop k X) = n_test_of t 200 ∧
    (t = default_test_size →
     length (take k X) = 150 ∧ length (drop k X) = 50).
Proof.
  intros HL Ht [Hpos Hn] Hgen k.
  destruct (make_regression_shape L HL _ _ _ _ _ _ _ Hgen) as (HX & Hy & Hrect).
  assert (length (take k X) = k) as Htake by (rewrite length_take; lia).
  assert (length (drop k X) = n_test_of t 200) as Hdrop
    by (rewrite length_drop; lia).
  destruct (imputer_no_missing L HL 5 (take k X)) as (stats & Hfit & Htrans).
  { apply nonempty_length. lia. }
  { lia. }
  { by apply rectangular_take. }
  specialize (Htrans (drop k X)
                ltac:(apply nonempty_length; lia)
                ltac:(by apply rectangular_drop)).
  pose proof (train_test_split_ordered L HL X y t s1 Ht) as Hsplit.
  rewrite HX, Hy in Hsplit. specialize (Hsplit eq_refl Hn).
  fold k in Hsplit. simpl in Hsplit.
  unfold read_synthetic_input, bind, randcall, libcall, ret.
  rewrite Hgen. simpl. rewrite Hsplit. simpl. rewrite Hfit. simpl.
  rewrite Htrans. simpl.
  eexists _, _. split; [reflexivity |].
  repeat split; try done.
  - apply take_drop.
  - apply take_drop.
  - subst t. rewrite Htake. by vm_compute.
  - subst t. rewrite Hdrop. by vm_compute.
Qed.
End Split.

(* ===================================================================== *)
(** ** The pipeline has one node *)
(* ===================================================================== *)

Module KfpFacts.
Import Kfp.

(** Whatever was registered before, [train_pipeline] registers one more
    op and leaves the others alone. *)
Lemma train_pipeline_registers executable_name image_tag ops :
  (train_pipeline executable_name image_tag ops).2
  = ops ++ [{| name := "train"; image := image_tag;
               command := ["python"; executable_name; "train"];
               working_dir := Some "/app"; secrets := ["user-gcp-sa"];
               dependent_names := [] |}].
Proof.
  unfold train_pipeline, new_ContainerOp, apply_use_gcp_secret,
    set_working_dir. simpl.
  rewrite <- (Nat.add_0_r (length ops)).
  by rewrite !alter_app_r.
Qed.

(** C3. The graph compiled from [train_pipeline] has exactly one node,
    the op named ["train"], whose command is [python] on the preprocessed
    executable with the argument ["train"]; that op depends on nothing and
    the graph has no edge. *)
Theorem train_pipeline_single_node (executable_name image_tag : string) :
  ∃ op,
    nodes (compile (train_pipeline executable_name image_tag)) = [op] ∧
    name op = "train" ∧
    command op = ["python"; executable_name; "train"] ∧
    image op = image_tag ∧
    dependent_names op = [] ∧
    edges (compile (train_pipeline executable_name image_tag)) = [].
Proof.
  unfold compile. rewrite train_pipeline_registers. simpl.
  eexists. by repeat split.
Qed.
End KfpFacts.

(* ===================================================================== *)
(** ** Which change starts which workflow *)
(* ===================================================================== *)

Module ProwFacts.
Import Prow.

Lemma glob_star (s : string) : glob "*" s = true.
Proof. induction s as [|c s IH]; [reflexivity |]. simpl. exact IH. Qed.

(** A literal followed by [*] matches exactly the strings that start with
    the literal. *)
Lemma glob_literal_star (lit s : string) :
  literal lit = true → glob (lit +:+ "*") s = String.prefix lit s.
Proof.
  revert s. induction lit as [|c lit IH]; intros s Hlit.
  - rewrite glob_star. by destruct s.
  - simpl in Hlit. apply andb_prop in Hlit as [Hc Hlit].
    apply andb_prop in Hc as [Hstar Hq].
    apply negb_true_iff in Hstar, Hq.
    change (String c lit +:+ "*") with (String c (lit +:+ "*")).
    simpl. rewrite Hstar, Hq.
    destruct s as [|d s]; [reflexivity |]. simpl.
    destruct (Ascii.ascii_dec c d) as [->|Hne].
    + rewrite Ascii.eqb_refl. simpl. by apply IH.
    + apply Ascii.eqb_neq in Hne. by rewrite Hne.
Qed.

Lemma prefix_clash (p q f : string) :
  clash p q = true → String.prefix p f = true → String.prefix q f = false.
Proof.
  revert q f. induction p as [|a p IH]; intros q f Hclash Hp; [done |].
  destruct q as [|b q]; [done |]. destruct f as [|c f]; [done |].
  simpl in *.
  destruct (Ascii.ascii_dec a c) as [->|]; [| done].
  destruct (Ascii.ascii_dec b c) as [->|]; [| done].
  rewrite Ascii.eqb_refl in Hclash. simpl in Hclash. by eapply IH.
Qed.

(** For a change confined to [d]: the pattern [d/*] is hit ... *)
Lemma own_pattern_hit (d pat : string) (changed : list string) :
  Forall (λ f, under d f = true) changed → changed ≠ [] →
  pat = (d +:+ "/") +:+ "*" → literal (d +:+ "/") = true →
  existsb (λ f, fnmatch f pat) changed = true.
Proof.
  intros Hall Hne -> Hlit. destruct changed as [|f changed]; [done |].
  apply Forall_cons in Hall as [Hf _]. simpl.
  unfold fnmatch. rewrite glob_literal_star by done.
  unfold under in Hf. by rewrite Hf.
Qed.

(** ... and the pattern [d'/*] of a directory that clashes with [d] is
    not. *)
Lemma other_pattern_missed (d d' pat : string) (changed : list string) :
  Forall (λ f, under d f = true) changed →
  pat = (d' +:+ "/") +:+ "*" → literal (d' +:+ "/") = true →
  clash (d +:+ "/") (d' +:+ "/") = true →
  existsb (λ f, fnmatch f pat) changed = false.
Proof.
  intros Hall -> Hlit Hclash. induction Hall as [|f changed Hf _ IH]; [done |].
  simpl. unfold fnmatch at 1. rewrite glob_literal_star by done.
  by rewrite (prefix_clash _ _ f Hclash Hf).
Qed.

#[local] Arguments fnmatch : simpl never.

(** C6. The five E2E entries are code-search, mnist, gis, xgboost and
    pytorch-mnist; each has one [include_dirs] pattern, [d/*] for the
    directory [d] of its own example.  The remaining entry, unittests, has
    no [include_dirs] and lists presubmit, postsubmit and periodic.
    Hence for a presubmit or postsubmit job whose changed files all lie
    under the directory of one E2E entry, the workflows started are
    unittests and that entry, and no other. *)
Theorem e2e_scoped_to_own_directory :
  name <$> List.filter e2e workflows
  = ["code-search"; "mnist"; "gis"; "xgboost"; "pytorch-mnist"] ∧
  (∀ w, w ∈ workflows → e2e w = true →
        ∃ d, example_dir (name w) = Some d ∧ include_dirs w = [d +:+ "/*"]) ∧
  (∀ w, w ∈ workflows → e2e w = false →
        include_dirs w = [] ∧ job_types w = [presubmit; postsubmit; periodic]) ∧
  (∀ jt w d changed,
     jt ≠ periodic → w ∈ workflows → example_dir (name w) = Some d →
     changed ≠ [] → Forall (λ f, under d f = true) changed →
     triggered jt changed = ["unittests"; name w]).
Proof.
  split; [reflexivity |]. split; [| split].
  - intros w Hw He. unfold workflows in Hw.
    repeat (apply elem_of_cons in Hw as [-> | Hw]);
      try discriminate He; try (by apply elem_of_nil in Hw);
      by eexists.
  - intros w Hw He. unfold workflows in Hw.
    repeat (apply elem_of_cons in Hw as [-> | Hw]);
      try discriminate He; try (by apply elem_of_nil in Hw); done.
  - intros jt w d changed Hjt Hw Hd Hne Hall. unfold workflows in Hw.
    repeat (apply elem_of_cons in Hw as [-> | Hw]);
      try discriminate Hd; try (by apply elem_of_nil in Hw);
      injection Hd as <-;
      (destruct jt; [| | done]);
      unfold triggered, workflows, runs, listed, dir_modified; simpl;
      rewrite
        ?(own_pattern_hit _ "code_search/*" changed Hall Hne eq_refl eq_refl),
        ?(own_pattern_hit _ "mnist/*" changed Hall Hne eq_refl eq_refl),
        ?(own_pattern_hit _ "github_issue_summarization/*" changed Hall Hne
            eq_refl eq_refl),
        ?(own_pattern_hit _ "xgboost_ames_housing/*" changed Hall Hne
            eq_refl eq_refl),
        ?(own_pattern_hit _ "pytorch_mnist/*" changed Hall Hne eq_refl eq_refl),
        ?(other_pattern_missed _ "code_search" "code_search/*" changed Hall
            eq_refl eq_refl eq_refl),
        ?(other_pattern_missed _ "mnist" "mnist/*" changed Hall
            eq_refl eq_refl eq_refl),
        ?(other_pattern_missed _ "github_issue_summarization"
            "github_issue_summarization/*" changed Hall eq_refl eq_refl eq_refl),
        ?(other_pattern_missed _ "xgboost_ames_housing"
            "xgboost_ames_housing/*" changed Hall eq_refl eq_refl eq_refl),
        ?(other_pattern_missed _ "pytorch_mnist" "pytorch_mnist/*" changed Hall
            eq_refl eq_refl eq_refl);
      reflexivity.
Qed.
End ProwFacts.

(* ===================================================================== *)
(** ** The statements at concrete inputs *)
(* ===================================================================== *)

Module MockFacts.
Import Mock.

Lemma row_length f s i : length (row f s i) = f.
Proof. unfold row. by rewrite length_fmap, length_seq. Qed.

Lemma lib_spec : LibrarySpec lib.
Proof.
  split.
  - intros n f noise s X y s' [= <- <- _]. simpl.
    rewrite !length_fmap, !length_seq. repeat split.
    apply Forall_fmap, Forall_forall. intros i _. apply row_length.
  - intros X y t s [Ht0 Ht1] Hy Hn k. simpl. unfold train_test_split.
    fold k. rewrite Ht0, Ht1. simpl.
    assert ((k =? 0) = false) as -> by (apply Nat.eqb_neq; lia).
    rewrite Hy, Nat.eqb_refl. reflexivity.
  - intros f X HX Hf Hrect. simpl.
    destruct X as [|r X]; [done |]. exists r. split; [reflexivity |].
    intros X' HX' _. by destruct X'.
Qed.

Lemma lib_predicts_each_row : predict_one_per_row lib.
Proof. intros m X p [= <-]. by rewrite length_fmap. Qed.
End MockFacts.

Lemma predict_first_item_witness :
  Mock.two_rows ≠ [] ∧
  read_object Mock.lib (Mock.world_with_file "m.dat" (PyEstimator 3%Q)) "m.dat"
  = Ok (PyEstimator 3%Q) ∧
  ∃ v s' evs,
    [3%Q; 3%Q] !! 0 = Some v ∧
    HousingServe_predict Mock.lib Mock.two_rows None
      (Mock.fresh "m.dat", Mock.world_with_file "m.dat" (PyEstimator 3%Q))
    = (Ok [[v; v]], s', evs) ∧
    model s'.1 = PyEstimator 3%Q ∧
    evs = [(Call_joblib_load "m.dat", None)]
          ++ [(Call_predict (PyEstimator 3%Q) Mock.two_rows, None);
              (Call_item [3%Q; 3%Q] 0, None); (Call_item [3%Q; 3%Q] 0, None)].
Proof.
  split; [done |]. split; [reflexivity |].
  apply (predict_first_item Mock.lib (Mock.fresh "m.dat")
           (Mock.world_with_file "m.dat" (PyEstimator 3%Q))
           Mock.two_rows None 3%Q [3%Q; 3%Q] MockFacts.lib_predicts_each_row).
  - done.
  - right. split; reflexivity.
  - reflexivity.
Defined.

Lemma train_steps_witness :
  ∃ s' evs,
    HousingServe_train Mock.lib (Mock.fresh "mockup-model.dat", Mock.empty_world)
    = (Ok tt, s', evs) ∧
    s'.1 = Mock.fresh "mockup-model.dat" ∧
    kinds evs = train_script ∧
    ∃ m0 m bytes,
      lib_XGBRegressor Mock.lib 50 (1 # 10) = Ok m0 ∧
      (∃ train_X train_y test_X test_y,
         lib_fit Mock.lib m0 train_X train_y 40 [(test_X, test_y)] = Ok m) ∧
      lib_dump Mock.lib (PyEstimator m) "mockup-model.dat" = Ok bytes ∧
      fs s'.2 !! "mockup-model.dat" = Some bytes.
Proof.
  destruct (HousingServe_train Mock.lib
              (Mock.fresh "mockup-model.dat", Mock.empty_world))
    as [[r s'] evs] eqn:Hrun.
  assert (r = Ok tt) as -> by (apply (f_equal (λ x, x.1.1)) in Hrun;
                               vm_compute in Hrun; congruence).
  exists s', evs. split; [reflexivity |].
  destruct (train_steps Mock.lib) as [Hscript Hret].
  specialize (Hscript (Mock.fresh "mockup-model.dat", Mock.empty_world)).
  rewrite Hrun in Hscript.
  destruct (Hret _ _ _ _ Hrun)
    as (X & y & s1 & raw_train_X & raw_test_X & s2 & imputer
        & train_X & train_y & test_X & test_y & m0 & m & predictions & mae
        & bytes & _ & _ & _ & _ & Hm0 & Hm & _ & _ & Hbytes & _ & ->).
  split; [reflexivity |]. split; [exact Hscript |].
  exists m0, m, bytes. split; [exact Hm0 |].
  split; [by exists train_X, train_y, test_X, test_y |].
  split; [exact Hbytes |]. apply lookup_insert_eq.
Defined.

Lemma exceptions_propagate_witness :
  HousingServe_predict Mock.lib Mock.two_rows None
    (Mock.fresh "absent.dat", Mock.empty_world)
  = (Raise (FileNotFoundError "absent.dat"),
     (Mock.fresh "absent.dat", Mock.empty_world),
     [] ++ (Call_joblib_load "absent.dat", Some (FileNotFoundError "absent.dat"))
        :: []) ∧
  (Raise (FileNotFoundError "absent.dat") : result (list (list Q)))
  = Raise (FileNotFoundError "absent.dat") ∧
  ([] : list (event Mock.estimator)) = [].
Proof.
  assert (HousingServe_predict Mock.lib Mock.two_rows None
            (Mock.fresh "absent.dat", Mock.empty_world)
          = (Raise (FileNotFoundError "absent.dat"),
             (Mock.fresh "absent.dat", Mock.empty_world),
             [] ++ (Call_joblib_load "absent.dat",
                    Some (FileNotFoundError "absent.dat")) :: []))
    as Hrun by reflexivity.
  split; [exact Hrun |].
  exact (proj1 (proj2 (exceptions_propagate Mock.lib _ _ _ _)) _ _ _ _ _ Hrun).
Defined.

Lemma single_model_file_witness :
  ∃ w' evs,
    save_model Mock.lib (PyEstimator 3%Q) "m.dat" Mock.empty_world
    = (Ok tt, w', evs) ∧
    dumps evs = [(Call_joblib_dump (PyEstimator 3%Q) "m.dat", None)] ∧
    fs w' !! "other.dat" = None ∧
    fs w' !! "m.dat" = Some (PyEstimator 3%Q).
Proof.
  eexists _, _. split; [reflexivity |].
  destruct (proj1 (single_model_file Mock.lib) (PyEstimator 3%Q) "m.dat"
              Mock.empty_world _ _ _ eq_refl) as (Hdump & Hframe & Hret).
  split; [reflexivity |]. split.
  - rewrite (Hframe "other.dat") by done. apply lookup_empty.
  - destruct (Hret eq_refl) as (bytes & [= <-] & ->). apply lookup_insert_eq.
Defined.

Lemma init_state_witness :
  supplied (Some "") = false ∧
  ∃ obj evs,
    HousingServe_init (estimator := Mock.estimator) (Some "")
      {| fs := (∅ : gmap string Mock.payload);
         environ := {[ "MODEL_FILE" := "from-env.dat" ]}; rng := 0 |}
    = (Ok obj,
       {| fs := ∅; environ := {[ "MODEL_FILE" := "from-env.dat" ]}; rng := 0 |},
       evs) ∧
    model_file obj = "from-env.dat" ∧
    n_estimators obj = 50 ∧ model obj = PyNone.
Proof.
  split; [reflexivity |].
  destruct (init_state (estimator := Mock.estimator) (Some "")
              {| fs := (∅ : gmap string Mock.payload);
                 environ := {[ "MODEL_FILE" := "from-env.dat" ]}; rng := 0 |})
    as (obj & evs & Hrun & Hn & _ & Hmodel & Henv & _).
  exists obj, evs. split; [exact Hrun |]. split; [| by split].
  apply Henv; [reflexivity | apply lookup_singleton_eq].
Defined.

Lemma predict_loads_when_falsy_witness :
  truthy (model (Mock.fresh "m.dat")) = false ∧
  truthy (PyEstimator 3%Q : pyobj Mock.estimator) = true ∧
  ∃ s' evs,
    predict_each Mock.lib [Mock.two_rows; Mock.two_rows; Mock.two_rows]
      (Mock.fresh "m.dat", Mock.world_with_file "m.dat" (PyEstimator 3%Q))
    = (s', evs) ∧
    model s'.1 = PyEstimator 3%Q ∧
    s'.2 = Mock.world_with_file "m.dat" (PyEstimator 3%Q) ∧
    loads evs = [(Call_joblib_load "m.dat", None)].
Proof.
  split; [reflexivity |]. split; [reflexivity |].
  eexists _, _. split; [reflexivity |].
  apply (proj2 (proj2 (predict_loads_when_falsy Mock.lib))
           Mock.two_rows [Mock.two_rows; Mock.two_rows] (Mock.fresh "m.dat")
           (Mock.world_with_file "m.dat" (PyEstimator 3%Q)) (PyEstimator 3%Q));
    reflexivity.
Defined.

(** C9 as stated fails: let the model file hold a pickled object whose truth
    value is [False] (an empty list, say).  The first [predict] on a fresh
    object loads it, and raises since the object has no [predict]; the
    object's [model] is then not [None]; yet the second [predict] on the
    same object loads the file again. *)
Lemma predict_reloads_falsy_object :
  let s0 := (Mock.fresh "m.dat", Mock.world_with_file "m.dat" (PyOther false)) in
  let '(_, s1, ev1) := HousingServe_predict Mock.lib Mock.two_rows None s0 in
  let '(_, s2, ev2) := HousingServe_predict Mock.lib Mock.two_rows None s1 in
  loads ev1 = [(Call_joblib_load "m.dat", None)] ∧
  model s1.1 ≠ PyNone ∧
  loads ev2 = [(Call_joblib_load "m.dat", None)] ∧
  ¬ length (loads (ev1 ++ ev2)) ≤ 1.
Proof.
  cbn. split; [reflexivity |]. split; [discriminate |].
  split; [reflexivity |]. unfold loads. simpl. lia.
Qed.

Lemma read_synthetic_input_split_witness :
  fraction default_test_size ∧
  0 < n_test_of default_test_size 200 < 200 ∧
  lib_make_regression Mock.lib 200 5 (1 # 10) (rng Mock.empty_world)
  = (Ok (Mock.X200, Mock.y200), 1%N) ∧
  ∃ w' evs,
    read_synthetic_input Mock.lib default_test_size Mock.empty_world
    = (Ok ((take 150 Mock.X200, take 150 Mock.y200),
           (drop 150 Mock.X200, drop 150 Mock.y200)), w', evs) ∧
    length (take 150 Mock.X200) = 150 ∧
    length (drop 150 Mock.X200) = 50.
Proof.
  assert (fraction default_test_size) as Ht by (split; reflexivity).
  assert (0 < n_test_of default_test_size 200 < 200) as Hn by (vm_compute; lia).
  assert (lib_make_regression Mock.lib 200 5 (1 # 10) (rng Mock.empty_world)
          = (Ok (Mock.X200, Mock.y200), 1%N)) as Hgen by reflexivity.
  repeat (split; [assumption |]).
  destruct (read_synthetic_input_split Mock.lib default_test_size
              Mock.empty_world Mock.X200 Mock.y200 1%N
              MockFacts.lib_spec Ht Hn Hgen)
    as (w' & evs & Hrun & _ & _ & _ & _ & _ & _ & _ & _ & Hdefault).
  exists w', evs. split; [exact Hrun |]. by apply Hdefault.
Defined.

(** C10 as stated fails: the training set is not always the first
    [(1 - test_size)] fraction of the rows.  For [test_size = 0.07] the
    double product [0.07 * 200] is just above 14, so 15 rows go to the test
    set and 185 to the training set, while [(1 - 0.07) * 200] is 186. *)
Lemma read_synthetic_input_split_seven_percent :
  n_test_of (7 # 100) 200 = 15 ∧
  ((1 - (7 # 100)) * 200 == 186)%Q ∧
  ∃ train_X train_y test_X test_y w' evs,
    read_synthetic_input Mock.lib (7 # 100) Mock.empty_world
    = (Ok ((train_X, train_y), (test_X, test_y)), w', evs) ∧
    length train_X = 185 ∧ length test_X = 15 ∧
    ¬ (inject_Z (Z.of_nat (length train_X)) == (1 - (7 # 100)) * 200)%Q.
Proof.
  split; [by vm_compute |]. split; [by vm_compute |].
  eexists _, _, _, _, _, _. split; [vm_compute; reflexivity |].
  split; [reflexivity |]. split; [reflexivity |].
  vm_compute. discriminate.
Qed.

Lemma e2e_scoped_to_own_directory_witness :
  Prow.presubmit ≠ Prow.periodic ∧
  Prow.example_dir "mnist" = Some "mnist" ∧
  Forall (λ f, Prow.under "mnist" f = true) ["mnist/a.py"; "mnist/b/c.txt"] ∧
  Prow.triggered Prow.presubmit ["mnist/a.py"; "mnist/b/c.txt"]
  = ["unittests"; "mnist"].
Proof.
  assert (Forall (λ f, Prow.under "mnist" f = true)
            ["mnist/a.py"; "mnist/b/c.txt"]) as Hall
    by (repeat constructor).
  split; [discriminate |]. split; [reflexivity |]. split; [exact Hall |].
  apply (proj2 (proj2 (proj2 ProwFacts.e2e_scoped_to_own_directory))
           Prow.presubmit
           {| Prow.app_dir := "kubeflow/examples/test/workflows";
              Prow.component := "mnist";
              Prow.name := "mnist";
              Prow.job_types := [Prow.periodic; Prow.presubmit; Prow.postsubmit];
              Prow.include_dirs := ["mnist/*"] |}
           "mnist" ["mnist/a.py"; "mnist/b/c.txt"]).
  - discriminate.
  - unfold Prow.workflows. do 2 apply list_elem_of_further.
    apply list_elem_of_here.
  - reflexivity.
  - discriminate.
  - exact Hall.
Defined.

(* ===================================================================== *)
(** ** More on [train]: what a failed run leaves behind *)
(* ===================================================================== *)

Section TrainMore.
Context {estimator payload : Type} (L : Library estimator payload).
Implicit Types (self : HousingServe estimator) (w : world payload)
  (evs : list (event estimator)).

Lemma read_synthetic_input_environ test_size w :
  environ (read_synthetic_input L test_size w).1.2 = environ w.
Proof.
  unfold read_synthetic_input, bind, randcall, libcall, ret.
  destruct (lib_make_regression L 200 5 (1 # 10) (rng w))
    as [[[X y]|e] s1]; [| reflexivity]. simpl.
  destruct (lib_train_test_split L X y test_size false s1)
    as [[[[[a b] c] d]|e] s2]; [| reflexivity]. simpl.
  destruct (lib_fit_transform L a) as [[stats a']|e]; [| reflexivity].
  destruct (lib_transform L stats b); reflexivity.
Qed.

(** Every run of [save_model] logs its one dump with the run's outcome and
    leaves the environment alone. *)
Lemma save_model_outcome o path w :
  dumps (save_model L o path w).2
  = [(Call_joblib_dump o path, raised (save_model L o path w).1.1)] ∧
  environ (save_model L o path w).1.2 = environ w.
Proof.
  unfold save_model, bind, joblib_dump, logging_info, libcall.
  destruct (lib_dump L o path); simpl; [done |].
  by destruct (lib_dump_partial L o path).
Qed.

(** Whatever happens, [train] leaves the object as it was (it never sets
    [self.model]) and does not touch the environment.  A run that did not
    get as far as the dump has changed no file: the model is dumped last,
    after fitting and evaluation went through.  The only other way to
    raise is in the dump itself: any dump in the log of a run that raises
    carries the run's exception. *)
Theorem train_failure_before_dump self w r s' evs :
  HousingServe_train L (self, w) = (r, s', evs) →
  s'.1 = self ∧
  environ s'.2 = environ w ∧
  (dumps evs = [] → fs s'.2 = fs w) ∧
  (∀ e, r = Raise e → Forall (λ ev, ev.2 = Some e) (dumps evs)).
Proof.
  unfold HousingServe_train.
  unfold bind at 1. simpl. unfold bind at 1. unfold on_world at 1. simpl.
  pose proof (read_synthetic_input_fs L default_test_size w) as Hfs.
  pose proof (read_synthetic_input_environ default_test_size w) as Henv.
  pose proof (no_dumps _ _ w
                (follows_read_synthetic_input L default_test_size) eq_refl) as Da.
  destruct (read_synthetic_input L default_test_size w)
    as [[[[[train_X train_y] [test_X test_y]]|e] w1] ev_a]; simpl in *.
  2:{ intros ?; simplify_eq; simpl. do 3 (split; [done |]).
      intros e' _. by rewrite Da. }
  unfold bind at 1.
  pose proof (train_model_state L train_X train_y test_X test_y
                (n_estimators self) (learning_rate self) (self, w1)) as Hb.
  pose proof (no_dumps _ _ (self, w1)
                (follows_train_model L train_X train_y test_X test_y
                   (n_estimators self) (learning_rate self)) eq_refl) as Db.
  destruct (train_model L train_X train_y test_X test_y
              (n_estimators self) (learning_rate self) (self, w1))
    as [[[m|e] s2] ev_b]; simpl in *; subst s2.
  2:{ intros ?; simplify_eq; simpl. do 3 (split; [done |]).
      intros e' _. by rewrite dumps_app, Da, Db. }
  unfold bind at 1.
  pose proof (eval_model_state L (PyEstimator m) test_X test_y (self, w1)) as He.
  pose proof (no_dumps _ _ (self, w1)
                (follows_eval_model L (PyEstimator m) test_X test_y) eq_refl) as De.
  destruct (eval_model L (PyEstimator m) test_X test_y (self, w1))
    as [[[[]|e] s3] ev_e]; simpl in *; subst s3.
  2:{ intros ?; simplify_eq; simpl. do 3 (split; [done |]).
      intros e' _. by rewrite !dumps_app, Da, Db, De. }
  unfold on_world. simpl.
  destruct (save_model_outcome (PyEstimator m) (model_file self) w1)
    as [Hd Hc].
  destruct (save_model L (PyEstimator m) (model_file self) w1)
    as [[r2 w2] ev_c]; simpl in *.
  intros ?; simplify_eq; simpl.
  rewrite !dumps_app, Da, Db, De, Hd. simpl.
  split; [done |]. split; [congruence |]. split; [done |].
  intros e' ->. by repeat constructor.
Qed.
End TrainMore.

(* ===================================================================== *)
(** ** More on [predict]: when it returns, and how it fails *)
(* ===================================================================== *)

Section PredictMore.
Context {estimator payload : Type} (L : Library estimator payload).
Implicit Types (self : HousingServe estimator) (w : world payload)
  (evs : list (event estimator)) (o : pyobj estimator).

(** The run of [predict] that has to load, and finds an estimator. *)
Lemma predict_run_loading X feature_names self w (m : estimator) p v :
  truthy (model self) = false →
  read_object L w (model_file self) = Ok (PyEstimator m) →
  lib_predict L m X = Ok p → p !! 0 = Some v →
  HousingServe_predict L X feature_names (self, w)
  = (Ok [[v; v]], (with_model self (PyEstimator m), w),
     [(Call_joblib_load (model_file self), None);
      (Call_predict (PyEstimator m) X, None);
      (Call_item p 0, None); (Call_item p 0, None)]).
Proof.
  intros Hfalsy Hread Hp Hv. destruct self as [n lr path o]. simpl in *.
  unfold HousingServe_predict, bind, get_self, on_world, joblib_load,
    set_model, libcall, ret, item, obj_predict, with_model. simpl.
  rewrite Hfalsy. simpl. rewrite Hread. simpl. by rewrite Hp, Hv.
Qed.

(** Whenever [predict] returns, what it returns is one row holding twice
    the first entry of what the library predicted for [X], and the object
    now holds the estimator that predicted: the one it held before, or the
    one [self.model_file] loaded to when it held nothing truthy.  So it
    cannot return for an object or file without an estimator, nor when the
    prediction is empty. *)
Theorem predict_returns_only_first_prediction X feature_names self w out s' evs :
  HousingServe_predict L X feature_names (self, w) = (Ok out, s', evs) →
  ∃ (m : estimator) p v,
    out = [[v; v]] ∧ p !! 0 = Some v ∧ lib_predict L m X = Ok p ∧
    model s'.1 = PyEstimator m ∧
    (model self = PyEstimator m ∨
     (truthy (model self) = false ∧
      read_object L w (model_file self) = Ok (PyEstimator m))).
Proof.
  destruct self as [n lr path o].
  unfold HousingServe_predict, bind, get_self, on_world, joblib_load,
    set_model, libcall, ret, item. simpl.
  destruct (truthy o) eqn:Ho; simpl.
  - destruct o as [|m|b]; simpl; try (intros ?; simplify_eq; fail).
    destruct (lib_predict L m X) as [p|e] eqn:Hp; simpl;
      [| intros ?; simplify_eq; fail].
    destruct (p !! 0) as [v|] eqn:Hv; simpl; intros ?; simplify_eq.
    exists m, p, v. simpl. by eauto 10.
  - destruct (read_object L w path) as [o'|e'] eqn:Hread; simpl;
      [| intros ?; simplify_eq; fail].
    destruct o' as [|m|b]; simpl; try (intros ?; simplify_eq; fail).
    destruct (lib_predict L m X) as [p|e] eqn:Hp; simpl;
      [| intros ?; simplify_eq; fail].
    destruct (p !! 0) as [v|] eqn:Hv; simpl; intros ?; simplify_eq.
    exists m, p, v. simpl. by eauto 10.
Qed.

Lemma predict_missing_file_run X feature_names self w :
  truthy (model self) = false →
  fs w !! model_file self = None →
  HousingServe_predict L X feature_names (self, w)
  = (Raise (FileNotFoundError (model_file self)), (self, w),
     [(Call_joblib_load (model_file self),
       Some (FileNotFoundError (model_file self)))]).
Proof.
  intros Hfalsy Hfile.
  unfold HousingServe_predict, bind, get_self, on_world, joblib_load,
    read_object. simpl. rewrite Hfalsy. simpl. by rewrite Hfile.
Qed.

(** With nothing loaded and no file at [self.model_file], [predict] raises
    [FileNotFoundError] for that path after the one [joblib.load] call, and
    changes nothing.  The failure is not remembered: each further call on
    the object tries the load again, so a series of calls logs one failed
    load for each call and nothing else. *)
Theorem predict_missing_file_retries (Xs : list ndarray) self w :
  truthy (model self) = false →
  fs w !! model_file self = None →
  (∀ X feature_names,
     HousingServe_predict L X feature_names (self, w)
     = (Raise (FileNotFoundError (model_file self)), (self, w),
        [(Call_joblib_load (model_file self),
          Some (FileNotFoundError (model_file self)))])) ∧
  predict_each L Xs (self, w)
  = ((self, w),
     (λ _, (Call_joblib_load (model_file self),
            Some (FileNotFoundError (model_file self)))) <$> Xs).
Proof.
  intros Hfalsy Hfile.
  split; [intros; by apply predict_missing_file_run |].
  induction Xs as [|X Xs IH]; [reflexivity |].
  simpl. rewrite predict_missing_file_run, IH by done. reflexivity.
Qed.

(** An empty batch: let the library's [predict] return one value for each
    row.  When an estimator is at hand and the library's [predict] returns
    for an [X] without rows, [predict] raises
    [IndexError] at [item(0)].  The estimator that was loaded for the call
    stays in [self.model] all the same. *)
Theorem predict_empty_batch feature_names self w (m : estimator) p :
  predict_one_per_row L →
  model self = PyEstimator m ∨
    (truthy (model self) = false ∧
     read_object L w (model_file self) = Ok (PyEstimator m)) →
  lib_predict L m [] = Ok p →
  ∃ evs0,
    HousingServe_predict L [] feature_names (self, w)
    = (Raise IndexError, (with_model self (PyEstimator m), w),
       evs0 ++ [(Call_predict (PyEstimator m) [], None);
                (Call_item [] 0, Some IndexError)]) ∧
    evs0 = if truthy (model self) then []
           else [(Call_joblib_load (model_file self), None)].
Proof.
  intros HL Hmodel Hp.
  assert (p = []) as ->.
  { apply HL in Hp. by destruct p. }
  destruct self as [n lr path o]. simpl in *.
  unfold HousingServe_predict, bind, get_self, on_world, joblib_load,
    set_model, libcall, ret, item, obj_predict, with_model. simpl.
  destruct Hmodel as [-> | [Hfalsy Hread]]; simpl.
  - rewrite Hp. simpl. by exists [].
  - rewrite Hfalsy. simpl. rewrite Hread. simpl. rewrite Hp. simpl.
    by exists [(Call_joblib_load path, None)].
Qed.
End PredictMore.

(* ===================================================================== *)
(** ** Training, then serving *)
(* ===================================================================== *)

Section RoundTrip.
Context {estimator payload : Type} (L : Library estimator payload).
Implicit Types (self : HousingServe estimator) (w : world payload)
  (evs : list (event estimator)).

Lemma train_environ self w :
  environ (HousingServe_train L (self, w)).1.2.2 = environ w.
Proof.
  unfold HousingServe_train.
  unfold bind at 1. simpl. unfold bind at 1. unfold on_world at 1. simpl.
  pose proof (read_synthetic_input_environ L default_test_size w) as Ha.
  destruct (read_synthetic_input L default_test_size w)
    as [[[[[train_X train_y] [test_X test_y]]|e] w1] ev_a];
    simpl in Ha; [| done].
  unfold bind at 1.
  pose proof (train_model_state L train_X train_y test_X test_y
                (n_estimators self) (learning_rate self) (self, w1)) as Hb.
  destruct (train_model L train_X train_y test_X test_y
              (n_estimators self) (learning_rate self) (self, w1))
    as [[[m|e] s2] ev_b]; simpl in Hb; subst s2; [| done].
  unfold bind at 1.
  pose proof (eval_model_state L (PyEstimator m) test_X test_y (self, w1)) as He.
  destruct (eval_model L (PyEstimator m) test_X test_y (self, w1))
    as [[[[]|e] s3] ev_e]; simpl in He; subst s3; [| done].
  unfold on_world. simpl.
  destruct (save_model_outcome L (PyEstimator m) (model_file self) w1)
    as [_ Hc].
  destruct (save_model L (PyEstimator m) (model_file self) w1)
    as [[r2 w2] ev_c]; simpl in *. congruence.
Qed.

(** What a returning [train] leaves at [self.model_file]. *)
Lemma train_leaves_estimator self w s' evs :
  joblib_round_trip L →
  HousingServe_train L (self, w) = (Ok tt, s', evs) →
  ∃ m : estimator,
    (Call_joblib_dump (PyEstimator m) (model_file self), None) ∈ evs ∧
    read_object L s'.2 (model_file self) = Ok (PyEstimator m).
Proof.
  intros Hrt Hrun.
  apply train_returns in Hrun
    as (train_X & train_y & test_X & test_y & m & w1 & w2
        & ev_a & ev_b & ev_e & ev_c & _ & _ & _ & Hc & -> & ->).
  apply save_model_returns in Hc as (bytes & Hd & -> & ->).
  exists m. split.
  - rewrite !elem_of_app. do 3 right. apply list_elem_of_here.
  - unfold read_object. simpl. rewrite lookup_insert_eq. by eapply Hrt.
Qed.

(** The two constructor calls of the notebook. *)
Lemma init_supplied (path : string) w :
  path ≠ "" →
  HousingServe_init (estimator := estimator) (Some path) w
  = (Ok {| n_estimators := 50; learning_rate := 1 # 10;
           model_file := path; model := PyNone |},
     w, [(Call_print [AStr ("model_file=" +:+ path)], None)]).
Proof.
  intros Hpath. unfold HousingServe_init, supplied.
  apply String.eqb_neq in Hpath. rewrite Hpath. reflexivity.
Qed.

Lemma init_default w :
  ∃ evs,
    HousingServe_init (estimator := estimator) None w
    = (Ok {| n_estimators := 50; learning_rate := 1 # 10;
             model_file := default "mockup-model.dat" (environ w !! "MODEL_FILE");
             model := PyNone |},
       w, evs).
Proof.
  unfold HousingServe_init, bind, get, print, libcall, ret. simpl.
  destruct (environ w !! "MODEL_FILE"); simpl; by eexists.
Qed.

(** Train, then serve.  With a joblib that reads back what it wrote: after
    a [train] that returned, [predict] on any object that has the same
    [model_file] and nothing loaded (the trained object itself, if it had
    nothing loaded, or a new one) loads the estimator [train] fitted and
    dumped, and returns twice the first entry of that estimator's
    prediction. *)
Theorem train_then_predict self w s' evs :
  joblib_round_trip L →
  HousingServe_train L (self, w) = (Ok tt, s', evs) →
  ∃ m : estimator,
    (Call_joblib_dump (PyEstimator m) (model_file self), None) ∈ evs ∧
    ∀ self2 X feature_names p v,
      model_file self2 = model_file self →
      truthy (model self2) = false →
      lib_predict L m X = Ok p → p !! 0 = Some v →
      ∃ evs2,
        HousingServe_predict L X feature_names (self2, s'.2)
        = (Ok [[v; v]], (with_model self2 (PyEstimator m), s'.2), evs2) ∧
        loads evs2 = [(Call_joblib_load (model_file self), None)].
Proof.
  intros Hrt Hrun.
  destruct (train_leaves_estimator self w s' evs Hrt Hrun) as (m & Hdump & Hread).
  exists m. split; [done |].
  intros self2 X feature_names p v Hpath Hfalsy Hp Hv.
  rewrite <- Hpath in Hread.
  eexists. split.
  - by apply predict_run_loading.
  - by rewrite Hpath.
Qed.

(** The notebook's own round trip.  When [MODEL_FILE] is not set, the
    "Predict locally" cell serves what the "Train your Model Locally" cell
    trained: if that cell returned, and the data generation of the predict
    cell returns test rows on which the fitted estimator predicts [p], the
    predict cell returns twice the first entry of [p]. *)
Theorem cells_round_trip w w1 ev1 :
  joblib_round_trip L →
  environ w !! "MODEL_FILE" = None →
  train_locally L w = (Ok tt, w1, ev1) →
  ∃ m : estimator,
    (Call_joblib_dump (PyEstimator m) "mockup-model.dat", None) ∈ ev1 ∧
    ∀ train_X train_y test_X test_y w1' ev_d p v,
      read_synthetic_input L default_test_size w1
      = (Ok ((train_X, train_y), (test_X, test_y)), w1', ev_d) →
      lib_predict L m test_X = Ok p → p !! 0 = Some v →
      ∃ w2 ev2, predict_locally L w1 = (Ok [[v; v]], w2, ev2).
Proof.
  intros Hrt Henv Hrun. unfold train_locally in Hrun.
  apply bind_Ok in Hrun as (self & w0 & ev_i & ev_t & Hinit & Hrun & ->).
  rewrite init_supplied in Hinit by done. simplify_eq.
  unfold call_method in Hrun.
  set (self := {| n_estimators := 50; learning_rate := 1 # 10;
                  model_file := "mockup-model.dat"; model := PyNone |}) in *.
  pose proof (train_environ self w0) as Henv1.
  pose proof (read_synthetic_input_fs L default_test_size) as Hfs.
  pose proof (read_synthetic_input_environ L default_test_size) as Henv2.
  destruct (HousingServe_train L (self, w0)) as [[r [self' w']] ev] eqn:Htrain.
  simpl in *. simplify_eq.
  destruct (train_leaves_estimator self w0 _ _ Hrt Htrain) as (m & Hdump & Hread).
  exists m. split.
  { by apply list_elem_of_further. }
  intros train_X train_y test_X test_y w1' ev_d p v Hdata Hp Hv.
  specialize (Hfs w1). specialize (Henv2 w1). rewrite Hdata in Hfs, Henv2.
  simpl in *.
  unfold predict_locally, bind. rewrite Hdata.
  destruct (init_default w1') as [ev_i Hinit]. rewrite Hinit.
  rewrite Henv2, Henv1, Henv. simpl.
  unfold call_method.
  rewrite (predict_run_loading L test_X None _ w1' m p v); [by eexists _, _ | done | | done | done].
  unfold read_object in *. simpl. by rewrite Hfs.
Qed.

Lemma read_synthetic_input_no_loads test_size w :
  loads (read_synthetic_input L test_size w).2 = [].
Proof.
  unfold read_synthetic_input, bind, randcall, libcall, ret.
  destruct (lib_make_regression L 200 5 (1 # 10) (rng w))
    as [[[X y]|e] s1]; [| reflexivity]. simpl.
  destruct (lib_train_test_split L X y test_size false s1)
    as [[[[[a b] c] d]|e] s2]; [| reflexivity]. simpl.
  destruct (lib_fit_transform L a) as [[stats a']|e]; [| reflexivity].
  destruct (lib_transform L stats b); reflexivity.
Qed.

Lemma init_from_environment w (v : string) :
  environ w !! "MODEL_FILE" = Some v →
  HousingServe_init (estimator := estimator) None w
  = (Ok {| n_estimators := 50; learning_rate := 1 # 10;
           model_file := v; model := PyNone |},
     w,
     [(Call_print [AStr "model_file not supplied; checking environment variable"],
       None);
      (Call_print [AStr ("model_file=" +:+ v)], None)]).
Proof.
  intros Henv. unfold HousingServe_init, bind, get, print, libcall, ret.
  simpl. by rewrite Henv.
Qed.

(** The predict cell takes its path from [MODEL_FILE] when that is set,
    and from nowhere else.  If the variable is set and no file is at its
    path, the cell cannot return, whether or not [mockup-model.dat] (which
    the train cell writes) holds a model: once its data generation has
    returned, its one load is [joblib.load] of the variable's path, and it
    raises [FileNotFoundError] for that path. *)
Theorem predict_cell_reads_MODEL_FILE w (v : string) r w2 ev2 :
  environ w !! "MODEL_FILE" = Some v →
  fs w !! v = None →
  predict_locally L w = (r, w2, ev2) →
  (∃ e, r = Raise e) ∧
  (∀ d w' ev_d,
     read_synthetic_input L default_test_size w = (Ok d, w', ev_d) →
     r = Raise (FileNotFoundError v) ∧
     loads ev2 = [(Call_joblib_load v, Some (FileNotFoundError v))]).
Proof.
  intros Henv Hfile Hpredict.
  unfold predict_locally, bind in Hpredict.
  pose proof (read_synthetic_input_fs L default_test_size w) as Hfs.
  pose proof (read_synthetic_input_environ L default_test_size w) as Henv2.
  pose proof (read_synthetic_input_no_loads default_test_size w) as La.
  destruct (read_synthetic_input L default_test_size w)
    as [[[[[train_X train_y] [test_X test_y]]|e] w'] ev_d]; simpl in *.
  2:{ simplify_eq. split; [by eexists | intros; discriminate]. }
  rewrite (init_from_environment w' v) in Hpredict by congruence.
  unfold call_method in Hpredict.
  set (self := {| n_estimators := 50; learning_rate := 1 # 10;
                  model_file := v; model := PyNone |}) in *.
  assert (fs w' !! model_file self = None) as Hnone by (simpl; by rewrite Hfs).
  rewrite (predict_missing_file_run L test_X None self w' eq_refl Hnone)
    in Hpredict.
  simpl in Hpredict. simplify_eq.
  split; [by eexists |]. intros d w'' ev_d' _. split; [done |].
  by rewrite loads_app, La.
Qed.
End RoundTrip.

(* ===================================================================== *)
(** ** More on the pipeline and on the workflows *)
(* ===================================================================== *)

Module KfpMore.
Import Kfp.

Lemma edges_of_app ops1 ops2 : edges_of (ops1 ++ ops2) = edges_of ops1 ++ edges_of ops2.
Proof. unfold edges_of. apply bind_app. Qed.

(** In any registration context, [train_pipeline] adds exactly one op at
    the end, keeps the ops registered before as they are and adds no edge.
    The secret and the working directory, which the cell sets through the
    reference after the op was registered, are on the registered op. *)
Theorem train_pipeline_extends_context (executable_name image_tag : string)
    (ops : list ContainerOp) :
  ∃ op,
    (train_pipeline executable_name image_tag ops).2 = ops ++ [op] ∧
    edges_of ((train_pipeline executable_name image_tag ops).2) = edges_of ops ∧
    (∀ i old, ops !! i = Some old →
              (train_pipeline executable_name image_tag ops).2 !! i = Some old) ∧
    working_dir op = Some "/app" ∧ secrets op = ["user-gcp-sa"] ∧
    command op = ["python"; executable_name; "train"].
Proof.
  rewrite KfpFacts.train_pipeline_registers. eexists. split; [reflexivity |].
  split; [| split; [| done]].
  - rewrite edges_of_app. simpl. apply app_nil_r.
  - intros i old Hold. by apply lookup_app_l_Some.
Qed.
End KfpMore.

Module ProwMore.
Import Prow.

Lemma names_distinct : NoDup (name <$> workflows).
Proof. by apply (bool_decide_unpack _). Qed.

(** In a list with distinct names, an entry's name is among the names
    that pass a filter exactly when the entry passes. *)
Lemma filter_by_name (p : workflow → bool) (ws : list workflow) (w : workflow) :
  NoDup (name <$> ws) → w ∈ ws →
  name w ∈ name <$> List.filter p ws ↔ p w = true.
Proof.
  intros Hnd Hw. split.
  - intros (w' & Hname & Hw')%list_elem_of_fmap.
    apply list_elem_of_In, List.filter_In in Hw' as [Hin Hp].
    apply list_elem_of_In in Hin.
    assert (w' = w) as <-; [| done].
    clear Hp. induction ws as [|a ws IH]; [by apply elem_of_nil in Hw |].
    simpl in Hnd. apply NoDup_cons in Hnd as [Ha Hnd].
    apply elem_of_cons in Hw as [-> | Hw];
      apply elem_of_cons in Hin as [-> | Hin]; try done.
    + exfalso. apply Ha. rewrite Hname. by apply list_elem_of_fmap_2.
    + exfalso. apply Ha. rewrite <- Hname. by apply list_elem_of_fmap_2.
    + by apply IH.
  - intros Hp. apply list_elem_of_fmap_2, list_elem_of_In, List.filter_In.
    split; [by apply list_elem_of_In | done].
Qed.

(** Some changed file matches [d/*] exactly when some changed file lies
    under [d]. *)
Lemma pattern_hit_iff (d pat : string) (changed : list string) :
  pat = (d +:+ "/") +:+ "*" → literal (d +:+ "/") = true →
  existsb (λ f, fnmatch f pat) changed = true
  ↔ ∃ f, f ∈ changed ∧ under d f = true.
Proof.
  intros -> Hlit. rewrite List.existsb_exists. unfold fnmatch, under.
  split; intros (f & Hf & Hm); exists f;
    (split; [by apply list_elem_of_In |]);
    by rewrite ?ProwFacts.glob_literal_star in *.
Qed.

#[local] Arguments fnmatch : simpl never.

(** For a presubmit or postsubmit job, an E2E entry is started exactly
    when some changed file lies under the directory of its example,
    whatever else changed.  (A change in two examples starts both entries,
    a change in none starts no E2E entry.) *)
Theorem e2e_runs_iff_touched (jt : job_type) (changed : list string)
    (w : workflow) (d : string) :
  jt ≠ periodic → w ∈ workflows → example_dir (name w) = Some d →
  name w ∈ triggered jt changed ↔ ∃ f, f ∈ changed ∧ under d f = true.
Proof.
  intros Hjt Hw Hd. unfold triggered.
  rewrite (filter_by_name _ _ _ names_distinct Hw).
  unfold workflows in Hw.
  repeat (apply elem_of_cons in Hw as [-> | Hw]);
    try discriminate Hd; try (by apply elem_of_nil in Hw);
    injection Hd as <-;
    (destruct jt; [| | done]);
    unfold runs, listed, dir_modified; simpl; rewrite orb_false_r;
    by apply pattern_hit_iff.
Qed.

(** A presubmit or postsubmit change that touches none of the example
    directories of the file (a change under [xgboost_synthetic/], say, or
    no changed file at all) starts the unit tests and nothing else. *)
Theorem change_outside_examples_runs_unittests_only (jt : job_type)
    (changed : list string) :
  jt ≠ periodic →
  Forall (λ f, Forall (λ d, under d f = false) example_dirs) changed →
  triggered jt changed = ["unittests"].
Proof.
  intros Hjt Hout.
  assert (∀ d pat, d ∈ example_dirs →
            pat = (d +:+ "/") +:+ "*" → literal (d +:+ "/") = true →
            existsb (λ f, fnmatch f pat) changed = false) as Hmiss.
  { intros d pat Hd Hpat Hlit. apply not_true_is_false.
    rewrite (pattern_hit_iff d pat changed Hpat Hlit).
    intros (f & Hf & Hu).
    rewrite Forall_forall in Hout. specialize (Hout f Hf).
    rewrite Forall_forall in Hout. specialize (Hout d Hd). congruence. }
  unfold triggered, workflows, runs, listed, dir_modified.
  destruct jt; [| | done]; simpl;
    rewrite (Hmiss "code_search" "code_search/*"),
      (Hmiss "mnist" "mnist/*"),
      (Hmiss "github_issue_summarization" "github_issue_summarization/*"),
      (Hmiss "xgboost_ames_housing" "xgboost_ames_housing/*"),
      (Hmiss "pytorch_mnist" "pytorch_mnist/*");
    try reflexivity; unfold example_dirs; simpl; set_solver.
Qed.

(** The unit tests are started for every job type and every change, first
    in the list; a periodic job never starts code-search or xgboost, which
    do not list that job type. *)
Theorem unittests_always_run (jt : job_type) (changed : list string) :
  ∃ rest,
    triggered jt changed = "unittests" :: rest ∧
    (jt = periodic → ¬ "code-search" ∈ rest ∧ ¬ "xgboost" ∈ rest).
Proof.
  unfold triggered, workflows, runs, listed.
  destruct jt; simpl; eexists; (split; [reflexivity |]); try done.
  intros _. split; by apply (bool_decide_unpack _).
Qed.
End ProwMore.

(* ===================================================================== *)
(** ** More on the data and on the saved file *)
(* ===================================================================== *)

Section DataMore.
Context {estimator payload : Type} (L : Library estimator payload).
Implicit Types (w : world payload) (evs : list (event estimator)).

(** Where the parts of a returned data set come from.  The targets are
    the ones the split returned, untouched.  The imputer is fitted on the
    training rows of the split alone, and the statistics of that fit are
    what is applied to the test rows: nothing of the test rows enters the
    fit.  The function draws random numbers and changes nothing else. *)
Theorem read_synthetic_input_imputes_from_training_rows
    (t : Q) w train_X train_y test_X test_y w' evs :
  read_synthetic_input L t w
  = (Ok ((train_X, train_y), (test_X, test_y)), w', evs) →
  ∃ X y s1 raw_train_X raw_test_X s2 stats,
    lib_make_regression L 200 5 (1 # 10) (rng w) = (Ok (X, y), s1) ∧
    lib_train_test_split L X y t false s1
    = (Ok (raw_train_X, raw_test_X, train_y, test_y), s2) ∧
    lib_fit_transform L raw_train_X = Ok (stats, train_X) ∧
    lib_transform L stats raw_test_X = Ok test_X ∧
    evs.*1 = [Call_make_regression 200 5 (1 # 10);
              Call_train_test_split X y t false;
              Call_SimpleImputer;
              Call_fit_transform raw_train_X;
              Call_transform raw_test_X] ∧
    fs w' = fs w ∧ environ w' = environ w ∧ rng w' = s2.
Proof.
  intros Hrun. unfold read_synthetic_input in Hrun. inv_ok.
  by eexists _, _, _, _, _, _, _.
Qed.

(** What [save_model] wrote can be loaded back, and it is the object that
    was saved; what [joblib.load] yields for any other path is as before. *)
Theorem save_then_load (o : pyobj estimator) (path : string) w w' evs :
  joblib_round_trip L →
  save_model L o path w = (Ok tt, w', evs) →
  read_object L w' path = Ok o ∧
  ∀ p, p ≠ path → read_object L w' p = read_object L w p.
Proof.
  intros Hrt Hrun.
  apply save_model_returns in Hrun as (bytes & Hd & -> & _).
  unfold read_object. simpl. split.
  - rewrite lookup_insert_eq. by eapply Hrt.
  - intros p Hp. by rewrite lookup_insert_ne.
Qed.
End DataMore.

(* ===================================================================== *)
(** ** The further statements at concrete inputs *)
(* ===================================================================== *)

Lemma mock_round_trip : joblib_round_trip Mock.lib.
Proof. intros o filename bytes [= <-]. reflexivity. Qed.

Lemma train_failure_before_dump_witness :
  ∃ s' evs,
    HousingServe_train Mock.failing_fit
      (Mock.fresh "mockup-model.dat", Mock.empty_world)
    = (Raise (LibraryError "XGBoostError"), s', evs) ∧
    dumps evs = [] ∧
    s'.1 = Mock.fresh "mockup-model.dat" ∧
    fs s'.2 = ∅.
Proof.
  destruct (HousingServe_train Mock.failing_fit
              (Mock.fresh "mockup-model.dat", Mock.empty_world))
    as [[r s'] evs] eqn:Hrun.
  assert (r = Raise (LibraryError "XGBoostError")) as ->
    by (apply (f_equal (λ x, x.1.1)) in Hrun; vm_compute in Hrun; congruence).
  assert (dumps evs = []) as Hd.
  { pose proof (f_equal (λ x, dumps x.2) Hrun) as H. simpl in H.
    rewrite <- H. vm_compute. reflexivity. }
  exists s', evs. split; [reflexivity |]. split; [exact Hd |].
  destruct (train_failure_before_dump Mock.failing_fit _ _ _ _ _ Hrun)
    as (Hself & _ & Hfiles & _).
  split; [exact Hself | exact (Hfiles Hd)].
Defined.

Lemma predict_returns_only_first_prediction_witness :
  ∃ s' evs,
    HousingServe_predict Mock.lib Mock.two_rows None
      (Mock.fresh "m.dat", Mock.world_with_file "m.dat" (PyEstimator 3%Q))
    = (Ok [[3%Q; 3%Q]], s', evs) ∧
    ∃ (m : Mock.estimator) p v,
      [[3%Q; 3%Q]] = [[v; v]] ∧ p !! 0 = Some v ∧
      lib_predict Mock.lib m Mock.two_rows = Ok p ∧
      model s'.1 = PyEstimator m.
Proof.
  eexists _, _. split; [reflexivity |].
  destruct (predict_returns_only_first_prediction Mock.lib Mock.two_rows None
              (Mock.fresh "m.dat")
              (Mock.world_with_file "m.dat" (PyEstimator 3%Q)) _ _ _ eq_refl)
    as (m & p & v & Hout & Hv & Hp & Hm & _).
  by exists m, p, v.
Defined.

Lemma predict_missing_file_retries_witness :
  truthy (model (Mock.fresh "absent.dat")) = false ∧
  fs Mock.empty_world !! model_file (Mock.fresh "absent.dat") = None ∧
  predict_each Mock.lib [Mock.two_rows; Mock.two_rows]
    (Mock.fresh "absent.dat", Mock.empty_world)
  = ((Mock.fresh "absent.dat", Mock.empty_world),
     [(Call_joblib_load "absent.dat", Some (FileNotFoundError "absent.dat"));
      (Call_joblib_load "absent.dat", Some (FileNotFoundError "absent.dat"))]).
Proof.
  split; [reflexivity |]. split; [apply lookup_empty |].
  exact (proj2 (predict_missing_file_retries Mock.lib
                  [Mock.two_rows; Mock.two_rows] (Mock.fresh "absent.dat")
                  Mock.empty_world eq_refl (lookup_empty _))).
Defined.

Lemma predict_empty_batch_witness :
  read_object Mock.lib (Mock.world_with_file "m.dat" (PyEstimator 3%Q)) "m.dat"
  = Ok (PyEstimator 3%Q) ∧
  lib_predict Mock.lib 3%Q [] = Ok [] ∧
  ∃ evs0,
    HousingServe_predict Mock.lib [] None
      (Mock.fresh "m.dat", Mock.world_with_file "m.dat" (PyEstimator 3%Q))
    = (Raise IndexError,
       (with_model (Mock.fresh "m.dat") (PyEstimator 3%Q),
        Mock.world_with_file "m.dat" (PyEstimator 3%Q)),
       evs0 ++ [(Call_predict (PyEstimator 3%Q) [], None);
                (Call_item [] 0, Some IndexError)]) ∧
    evs0 = [(Call_joblib_load "m.dat", None)].
Proof.
  split; [reflexivity |]. split; [reflexivity |].
  apply (predict_empty_batch Mock.lib None (Mock.fresh "m.dat")
           (Mock.world_with_file "m.dat" (PyEstimator 3%Q)) 3%Q []
           MockFacts.lib_predicts_each_row).
  - right. split; reflexivity.
  - reflexivity.
Defined.

Lemma train_then_predict_witness :
  ∃ s' evs (m : Mock.estimator) evs2,
    HousingServe_train Mock.lib (Mock.fresh "mockup-model.dat", Mock.empty_world)
    = (Ok tt, s', evs) ∧
    HousingServe_predict Mock.lib Mock.two_rows None
      (Mock.fresh "mockup-model.dat", s'.2)
    = (Ok [[m; m]], (with_model (Mock.fresh "mockup-model.dat") (PyEstimator m), s'.2),
       evs2).
Proof.
  destruct (HousingServe_train Mock.lib
              (Mock.fresh "mockup-model.dat", Mock.empty_world))
    as [[r s'] evs] eqn:Hrun.
  assert (r = Ok tt) as -> by (apply (f_equal (λ x, x.1.1)) in Hrun;
                               vm_compute in Hrun; congruence).
  destruct (train_then_predict Mock.lib _ _ _ _ mock_round_trip Hrun)
    as (m & _ & Hserve).
  destruct (Hserve (Mock.fresh "mockup-model.dat") Mock.two_rows None [m; m] m
              eq_refl eq_refl eq_refl eq_refl) as (evs2 & Hpred & _).
  by exists s', evs, m, evs2.
Defined.

Lemma cells_round_trip_witness :
  environ Mock.empty_world !! "MODEL_FILE" = None ∧
  ∃ w1 ev1 (m : Mock.estimator),
    train_locally Mock.lib Mock.empty_world = (Ok tt, w1, ev1) ∧
    (Call_joblib_dump (PyEstimator m) "mockup-model.dat", None) ∈ ev1.
Proof.
  split; [apply lookup_empty |].
  destruct (train_locally Mock.lib Mock.empty_world) as [[r w1] ev1] eqn:Hrun.
  assert (r = Ok tt) as -> by (apply (f_equal (λ x, x.1.1)) in Hrun;
                               vm_compute in Hrun; congruence).
  destruct (cells_round_trip Mock.lib _ _ _ mock_round_trip (lookup_empty _) Hrun)
    as (m & Hdump & _).
  by exists w1, ev1, m.
Defined.

Lemma predict_cell_reads_MODEL_FILE_witness :
  let w := {| fs := ({[ "mockup-model.dat" := PyEstimator 3%Q ]}
                     : gmap string Mock.payload);
              environ := {[ "MODEL_FILE" := "served.dat" ]}; rng := 0 |} in
  environ w !! "MODEL_FILE" = Some "served.dat" ∧
  fs w !! "served.dat" = None ∧
  ∃ w2 ev2,
    predict_locally Mock.lib w
    = (Raise (FileNotFoundError "served.dat"), w2, ev2) ∧
    loads ev2
    = [(Call_joblib_load "served.dat", Some (FileNotFoundError "served.dat"))].
Proof.
  intros w.
  assert (environ w !! "MODEL_FILE" = Some "served.dat") as Henv
    by apply lookup_singleton_eq.
  assert (fs w !! "served.dat" = None) as Hfile
    by (by apply lookup_singleton_ne).
  split; [exact Henv |]. split; [exact Hfile |].
  destruct (predict_locally Mock.lib w) as [[r w2] ev2] eqn:Hrun.
  destruct (read_synthetic_input Mock.lib default_test_size w)
    as [[rd wd] evd] eqn:Hdata.
  assert (∃ d, rd = Ok d) as [d ->].
  { apply (f_equal (λ x, x.1.1)) in Hdata. vm_compute in Hdata.
    rewrite <- Hdata. by eexists. }
  destruct (proj2 (predict_cell_reads_MODEL_FILE Mock.lib w "served.dat"
                     r w2 ev2 Henv Hfile Hrun) d wd evd Hdata) as [-> Hloads].
  by exists w2, ev2.
Defined.

Lemma read_synthetic_input_imputes_from_training_rows_witness :
  ∃ w' evs stats,
    read_synthetic_input Mock.lib default_test_size Mock.empty_world
    = (Ok ((take 150 Mock.X200, take 150 Mock.y200),
           (drop 150 Mock.X200, drop 150 Mock.y200)), w', evs) ∧
    lib_fit_transform Mock.lib (take 150 Mock.X200)
    = Ok (stats, take 150 Mock.X200) ∧
    lib_transform Mock.lib stats (drop 150 Mock.X200) = Ok (drop 150 Mock.X200).
Proof.
  assert (∃ w' evs,
            read_synthetic_input Mock.lib default_test_size Mock.empty_world
            = (Ok ((take 150 Mock.X200, take 150 Mock.y200),
                   (drop 150 Mock.X200, drop 150 Mock.y200)), w', evs))
    as (w' & evs & Hrun) by (eexists _, _; reflexivity).
  destruct (read_synthetic_input_imputes_from_training_rows Mock.lib _ _ _ _ _ _
              _ _ Hrun)
    as (X & y & s1 & raw_train & raw_test & s2 & stats
        & Hgen & Hsplit & Hfit & Htrans & _).
  injection Hgen as <- <- <-. injection Hsplit as <- <- <-.
  by exists w', evs, stats.
Defined.

Lemma save_then_load_witness :
  ∃ w' evs,
    save_model Mock.lib (PyEstimator 3%Q) "m.dat"
      (Mock.world_with_file "other.dat" (PyEstimator 5%Q))
    = (Ok tt, w', evs) ∧
    read_object Mock.lib w' "m.dat" = Ok (PyEstimator 3%Q) ∧
    read_object Mock.lib w' "other.dat" = Ok (PyEstimator 5%Q).
Proof.
  eexists _, _. split; [reflexivity |].
  destruct (save_then_load Mock.lib (PyEstimator 3%Q) "m.dat"
              (Mock.world_with_file "other.dat" (PyEstimator 5%Q)) _ _
              mock_round_trip eq_refl) as [Hsame Hother].
  split; [exact Hsame |].
  rewrite (Hother "other.dat") by discriminate. reflexivity.
Defined.

Lemma train_pipeline_extends_context_witness :
  let before := {| Kfp.name := "prepare"; Kfp.image := "img:0";
                   Kfp.command := ["true"]; Kfp.working_dir := None;
                   Kfp.secrets := []; Kfp.dependent_names := [] |} in
  [before] !! 0 = Some before ∧
  (Kfp.train_pipeline "nb.py" "img:1" [before]).2 !! 0 = Some before ∧
  length (Kfp.train_pipeline "nb.py" "img:1" [before]).2 = 2.
Proof.
  intros before.
  destruct (KfpMore.train_pipeline_extends_context "nb.py" "img:1" [before])
    as (op & Hops & _ & Hkeep & _).
  split; [reflexivity |]. split; [by apply Hkeep |].
  by rewrite Hops.
Defined.

Lemma e2e_runs_iff_touched_witness :
  Prow.presubmit ≠ Prow.periodic ∧
  Prow.example_dir "gis" = Some "github_issue_summarization" ∧
  ("gis" ∈ Prow.triggered Prow.presubmit
             ["mnist/model.py"; "github_issue_summarization/README.md"]
   ↔ ∃ f, f ∈ ["mnist/model.py"; "github_issue_summarization/README.md"] ∧
          Prow.under "github_issue_summarization" f = true).
Proof.
  split; [discriminate |]. split; [reflexivity |].
  apply (ProwMore.e2e_runs_iff_touched Prow.presubmit
           ["mnist/model.py"; "github_issue_summarization/README.md"]
           {| Prow.app_dir := "kubeflow/examples/test/workflows";
              Prow.component := "gis";
              Prow.name := "gis";
              Prow.job_types := [Prow.periodic; Prow.presubmit; Prow.postsubmit];
              Prow.include_dirs := ["github_issue_summarization/*"] |}
           "github_issue_summarization").
  - discriminate.
  - unfold Prow.workflows. do 3 apply list_elem_of_further.
    apply list_elem_of_here.
  - reflexivity.
Defined.

Lemma change_outside_examples_runs_unittests_only_witness :
  Prow.postsubmit ≠ Prow.periodic ∧
  Forall (λ f, Forall (λ d, Prow.under d f = false) Prow.example_dirs)
    ["xgboost_synthetic/build-train-deploy.ipynb"; "prow_config.yaml"] ∧
  Prow.triggered Prow.postsubmit
    ["xgboost_synthetic/build-train-deploy.ipynb"; "prow_config.yaml"]
  = ["unittests"].
Proof.
  assert (Forall (λ f, Forall (λ d, Prow.under d f = false) Prow.example_dirs)
            ["xgboost_synthetic/build-train-deploy.ipynb"; "prow_config.yaml"])
    as Hout by (repeat constructor).
  split; [discriminate |]. split; [exact Hout |].
  apply (ProwMore.change_outside_examples_runs_unittests_only
           Prow.postsubmit _ ltac:(discriminate) Hout).
Defined.

Lemma unittests_always_run_witness :
  ∃ rest,
    Prow.triggered Prow.periodic ["code_search/a.py"] = "unittests" :: rest ∧
    ¬ "code-search" ∈ rest ∧ ¬ "xgboost" ∈ rest.
Proof.
  destruct (ProwMore.unittests_always_run Prow.periodic ["code_search/a.py"])
    as (rest & Heq & Hnot).
  exists rest. split; [exact Heq | by apply Hnot].
Defined.
